(** * PCG4YA: an endless platformer, its simulation core

    A shallow embedding of [PCG4YA.py]: the player kinematics and collision
    resolution, the per-type platform behaviour, the seeded platform
    generator, the smoothed camera and the session controller.

    Conventions.
    - Python [int] values are [Z].  Python [float] values are idealised as
      exact rationals [Q]: every arithmetic operation is the exact one, so
      the embedding describes the program up to floating-point rounding.
    - Timers, platform coordinates and platform widths are always [int] in
      the source; player and camera coordinates mix [int] and [float] and are
      rationals here.
    - The module-level constants of the source are collected in a record
      [Config]; [reference_config] holds the values the source assigns.
    - The [random] module is not part of the program: it is an interface
      [PyRandom], and its process-wide state is threaded explicitly through
      every function that draws from it.
    - Of pygame only [display.set_mode], which [Game()] calls with the
      screen constants, is modelled; rendering, event polling and the clock
      are not. *)

From Stdlib Require Import ZArith QArith Qround Qabs List Bool Lia Lqa.
From Stdlib Require String.
Import ListNotations.

Open Scope Z_scope.

(** ** Python built-ins used by the program *)

Module Py.

(** [a < b] on numbers. *)
Definition ltb (a b : Q) : bool := negb (Qle_bool b a).

(** [a <= b] on numbers. *)
Definition leb (a b : Q) : bool := Qle_bool a b.

(** [min(a, b)]: the first argument unless the second is strictly smaller. *)
Definition min (a b : Q) : Q := if ltb b a then b else a.

(** [max(a, b)]: the first argument unless the second is strictly larger. *)
Definition max (a b : Q) : Q := if ltb a b then b else a.

(** [int(q)]: truncation toward zero. *)
Definition int (q : Q) : Z := Z.quot (Qnum q) (Zpos (Qden q)).

(** [n // d] on integers. *)
Definition floordiv (n d : Z) : Z := Z.div n d.

(** [math.sqrt], idealised: the square root rounded down to a multiple of
    2^-52 (exact on the perfect squares the program meets). *)
Definition sqrt_scale : Z := 2 ^ 52.

Definition sqrt (q : Q) : Q :=
  Qmake (Z.sqrt (Qfloor (q * inject_Z (sqrt_scale * sqrt_scale)))) (Z.to_pos sqrt_scale).

(** The outcome of a call that may raise. *)
Inductive result (A : Type) : Type :=
| Ok (a : A)
| Raise (message : String.string).
Arguments Ok {A} a.
Arguments Raise {A} message.

End Py.

(** ** pygame *)

Module Pygame.

Import String.

(** [pygame.display.set_mode(size)]: pygame refuses a negative width or height
    with [pygame.error]; a size of zero stands for the size of the desktop.
    The surface it returns is not modelled. *)
Definition display_set_mode (size : Z * Z) : Py.result unit :=
  if (fst size <? 0) || (snd size <? 0)
  then Py.Raise "Cannot set negative sized display mode"%string
  else Py.Ok tt.

End Pygame.

(** ** The [random] module

    [random.seed] replaces the state of the stream; [random.randint] and
    [random.random] draw from it.  The program only ever uses the one
    process-wide stream. *)

Record PyRandom : Type := {
  rng : Type;
  random_seed : Z -> rng;
  random_randint : Z -> Z -> rng -> Z * rng;
  random_random : rng -> Q * rng
}.

(** A linear congruential stream, used wherever the development runs the
    program on concrete inputs. *)
Module Lcg.

Definition modulus : Z := 2 ^ 31.

Definition next (s : Z) : Z := (1103515245 * s + 12345) mod modulus.

Definition reseed (s : Z) : Z := s mod modulus.

Definition draw_int (a b : Z) (s : Z) : Z * Z :=
  let s' := next s in (a + (s' / 65536) mod (b - a + 1), s').

Definition draw_unit (s : Z) : Q * Z :=
  let s' := next s in (Qmake s' (Z.to_pos modulus), s').

Definition R : PyRandom :=
  {| rng := Z; random_seed := reseed; random_randint := draw_int;
     random_random := draw_unit |}.

End Lcg.

(** ** Constants *)

Record Config : Type := {
  SCREEN_WIDTH : Z;
  SCREEN_HEIGHT : Z;
  GRAVITY : Q;
  PLAYER_SPEED : Z;
  JUMP_STRENGTH : Z;
  DASH_SPEED : Z;
  DASH_DURATION : Z;
  COYOTE_TIME : Z
}.

Definition reference_config : Config := {|
  SCREEN_WIDTH := 1000;
  SCREEN_HEIGHT := 600;
  GRAVITY := 7 # 10;
  PLAYER_SPEED := 6;
  JUMP_STRENGTH := -15;
  DASH_SPEED := 20;
  DASH_DURATION := 10;
  COYOTE_TIME := 6
|}.

(** The keys the core reads from [pygame.key.get_pressed()]. *)
Record Keys : Type := {
  K_LEFT : bool;
  K_RIGHT : bool;
  K_UP : bool;
  K_DOWN : bool;
  K_z : bool;
  K_x : bool
}.

Definition no_keys : Keys :=
  {| K_LEFT := false; K_RIGHT := false; K_UP := false; K_DOWN := false;
     K_z := false; K_x := false |}.

Inductive PlatformType : Type := NORMAL | CRUMBLING | BOUNCY | MOVING.

Definition PlatformType_eqb (a b : PlatformType) : bool :=
  match a, b with
  | NORMAL, NORMAL | CRUMBLING, CRUMBLING | BOUNCY, BOUNCY | MOVING, MOVING => true
  | _, _ => false
  end.

(** ** class Platform *)

Module Platform.

(** The attributes only a MOVING platform has. *)
Record motion : Type := mk_motion {
  original_y : Z;
  move_range : Z;
  move_speed : Z;
  move_direction : Z
}.

Record t : Type := mk {
  x : Z;
  y : Z;
  width : Z;
  height : Z;
  platform_type : PlatformType;
  crumble_timer : Z;
  active : bool;
  moving : option motion
}.

(** [Platform(x, y, width, platform_type)] *)
Definition init (x0 y0 w : Z) (ty : PlatformType) : t :=
  mk x0 y0 w 20 ty 0 true
     (match ty with
      | MOVING => Some (mk_motion y0 100 2 1)
      | _ => None
      end).

Definition set_y (v : Z) (p : t) : t :=
  mk (x p) v (width p) (height p) (platform_type p) (crumble_timer p) (active p) (moving p).

Definition set_crumble_timer (v : Z) (p : t) : t :=
  mk (x p) (y p) (width p) (height p) (platform_type p) v (active p) (moving p).

Definition set_active (v : bool) (p : t) : t :=
  mk (x p) (y p) (width p) (height p) (platform_type p) (crumble_timer p) v (moving p).

Definition set_moving (v : option motion) (p : t) : t :=
  mk (x p) (y p) (width p) (height p) (platform_type p) (crumble_timer p) (active p) v.

Definition update_crumbling (p : t) : t :=
  if PlatformType_eqb (platform_type p) CRUMBLING && (0 <? crumble_timer p)
  then
    let p1 := set_crumble_timer (crumble_timer p - 1) p in
    if crumble_timer p1 <=? 0 then set_active false p1 else p1
  else p.

(** A MOVING platform always carries its motion attributes ([init]); the
    [None] branch stands for an attribute that is never read. *)
Definition update_moving (p : t) : t :=
  if PlatformType_eqb (platform_type p) MOVING
  then
    match moving p with
    | Some m =>
        let p1 := set_y (y p + move_speed m * move_direction m) p in
        if Z.abs (y p1 - original_y m) >? move_range m
        then set_moving (Some (mk_motion (original_y m) (move_range m) (move_speed m)
                                         (move_direction m * -1))) p1
        else p1
    | None => p
    end
  else p.

Definition update (p : t) : t := update_moving (update_crumbling p).

Definition start_crumble (p : t) : t :=
  if crumble_timer p =? 0 then set_crumble_timer 30 p else p.

End Platform.

(** ** class Player *)

Module Player.

Record t : Type := mk {
  x : Q;
  y : Q;
  width : Z;
  height : Z;
  vel_x : Q;
  vel_y : Q;
  on_ground : bool;
  dash_timer : Z;
  dash_cooldown : Z;
  dashing : bool;
  coyote_timer : Z
}.

(** [Player(x, y)] *)
Definition init (x0 y0 : Q) : t :=
  mk x0 y0 30 40 0 0 false 0 0 false 0.

Definition set_x (v : Q) (p : t) : t :=
  mk v (y p) (width p) (height p) (vel_x p) (vel_y p) (on_ground p)
     (dash_timer p) (dash_cooldown p) (dashing p) (coyote_timer p).
Definition set_y (v : Q) (p : t) : t :=
  mk (x p) v (width p) (height p) (vel_x p) (vel_y p) (on_ground p)
     (dash_timer p) (dash_cooldown p) (dashing p) (coyote_timer p).
Definition set_vel_x (v : Q) (p : t) : t :=
  mk (x p) (y p) (width p) (height p) v (vel_y p) (on_ground p)
     (dash_timer p) (dash_cooldown p) (dashing p) (coyote_timer p).
Definition set_vel_y (v : Q) (p : t) : t :=
  mk (x p) (y p) (width p) (height p) (vel_x p) v (on_ground p)
     (dash_timer p) (dash_cooldown p) (dashing p) (coyote_timer p).
Definition set_on_ground (v : bool) (p : t) : t :=
  mk (x p) (y p) (width p) (height p) (vel_x p) (vel_y p) v
     (dash_timer p) (dash_cooldown p) (dashing p) (coyote_timer p).
Definition set_dash_timer (v : Z) (p : t) : t :=
  mk (x p) (y p) (width p) (height p) (vel_x p) (vel_y p) (on_ground p)
     v (dash_cooldown p) (dashing p) (coyote_timer p).
Definition set_dash_cooldown (v : Z) (p : t) : t :=
  mk (x p) (y p) (width p) (height p) (vel_x p) (vel_y p) (on_ground p)
     (dash_timer p) v (dashing p) (coyote_timer p).
Definition set_dashing (v : bool) (p : t) : t :=
  mk (x p) (y p) (width p) (height p) (vel_x p) (vel_y p) (on_ground p)
     (dash_timer p) (dash_cooldown p) v (coyote_timer p).
Definition set_coyote_timer (v : Z) (p : t) : t :=
  mk (x p) (y p) (width p) (height p) (vel_x p) (vel_y p) (on_ground p)
     (dash_timer p) (dash_cooldown p) (dashing p) v.

Section WithConfig.
Context (cfg : Config).

(** The blocks of [update], in source order. *)

(** Horizontal movement. *)
Definition horizontal_movement (keys : Keys) (p : t) : t :=
  if dashing p then p
  else if K_LEFT keys then set_vel_x (- inject_Z (PLAYER_SPEED cfg)) p
  else if K_RIGHT keys then set_vel_x (inject_Z (PLAYER_SPEED cfg)) p
  else set_vel_x 0 p.

(** Update coyote time. *)
Definition update_coyote (p : t) : t :=
  if on_ground p then set_coyote_timer (COYOTE_TIME cfg) p
  else if 0 <? coyote_timer p then set_coyote_timer (coyote_timer p - 1) p
  else p.

(** Jumping. *)
Definition jump_triggered (keys : Keys) (p : t) : bool :=
  K_z keys && (0 <? coyote_timer p) && Py.leb 0 (vel_y p).

Definition jumping (keys : Keys) (p : t) : t :=
  if jump_triggered keys p
  then set_on_ground false
         (set_coyote_timer 0 (set_vel_y (inject_Z (JUMP_STRENGTH cfg)) p))
  else p.

(** The dash direction chosen from the arrow keys. *)
Definition dash_direction (keys : Keys) : Z * Z :=
  let dash_x := if K_LEFT keys then -1 else if K_RIGHT keys then 1 else 0 in
  let dash_y := if K_UP keys then -1 else if K_DOWN keys then 1 else 0 in
  if (dash_x =? 0) && (dash_y =? 0) then (1, dash_y) else (dash_x, dash_y).

Definition dash_triggered (keys : Keys) (p : t) : bool :=
  K_x keys && (dash_cooldown p <=? 0) && negb (dashing p).

(** Dash mechanic. *)
Definition dash_mechanic (keys : Keys) (p : t) : t :=
  if dash_triggered keys p
  then
    let p1 := set_dash_cooldown 60
                (set_dash_timer (DASH_DURATION cfg) (set_dashing true p)) in
    let '(dash_x, dash_y) := dash_direction keys in
    let magnitude := Py.sqrt (inject_Z (dash_x ^ 2 + dash_y ^ 2)) in
    if Py.ltb 0 magnitude
    then set_vel_y ((inject_Z dash_y / magnitude) * inject_Z (DASH_SPEED cfg))
           (set_vel_x ((inject_Z dash_x / magnitude) * inject_Z (DASH_SPEED cfg)) p1)
    else p1
  else p.

(** Handle dash. *)
Definition handle_dash (p : t) : t :=
  if dashing p
  then
    let p1 := set_dash_timer (dash_timer p - 1) p in
    if dash_timer p1 <=? 0
    then set_vel_x (if Py.ltb 0 (vel_x p1)
                    then inject_Z (PLAYER_SPEED cfg)
                    else - inject_Z (PLAYER_SPEED cfg))
           (set_dashing false p1)
    else p1
  else p.

Definition cooldown (p : t) : t :=
  if 0 <? dash_cooldown p then set_dash_cooldown (dash_cooldown p - 1) p else p.

(** Apply gravity. *)
Definition apply_gravity (p : t) : t :=
  if negb (dashing p) then set_vel_y (vel_y p + GRAVITY cfg) p else p.

(** Apply velocity. *)
Definition apply_velocity (p : t) : t :=
  set_y (y p + vel_y p) (set_x (x p + vel_x p) p).

Definition check_collision (p : t) (platform : Platform.t) : bool :=
  Py.ltb (x p) (inject_Z (Platform.x platform + Platform.width platform))
  && Py.ltb (inject_Z (Platform.x platform)) (x p + inject_Z (width p))
  && Py.ltb (y p) (inject_Z (Platform.y platform + Platform.height platform))
  && Py.ltb (inject_Z (Platform.y platform)) (y p + inject_Z (height p)).

(** The test that makes a contact a landing: only collide from top. *)
Definition lands_on (p : t) (platform : Platform.t) : bool :=
  Py.ltb 0 (vel_y p)
  && Py.leb (y p + inject_Z (height p) - vel_y p) (inject_Z (Platform.y platform + 5)).

(** [handle_collision] changes the player and, through [start_crumble], the
    platform it was given. *)
Definition handle_collision (p : t) (platform : Platform.t) : t * Platform.t :=
  if lands_on p platform
  then
    let p1 := set_on_ground true
                (set_vel_y 0
                   (set_y (inject_Z (Platform.y platform) - inject_Z (height p)) p)) in
    match Platform.platform_type platform with
    | BOUNCY =>
        (set_on_ground false
           (set_vel_y (inject_Z (JUMP_STRENGTH cfg) * (15 # 10)) p1), platform)
    | CRUMBLING => (p1, Platform.start_crumble platform)
    | _ => (p1, platform)
    end
  else (p, platform).

Definition collide (p : t) (platform : Platform.t) : t * Platform.t :=
  if check_collision p platform then handle_collision p platform else (p, platform).

(** The loop over the platforms handed to [update]; the platform objects are
    returned as the loop leaves them. *)
Fixpoint collisions (p : t) (platforms : list Platform.t) : t * list Platform.t :=
  match platforms with
  | [] => (p, [])
  | platform :: rest =>
      let '(p1, platform1) := collide p platform in
      let '(p2, rest1) := collisions p1 rest in
      (p2, platform1 :: rest1)
  end.

(** The same loop run on a list whose active members are the platforms handed
    to [update]: [get_active_platforms] builds a new list of the same platform
    objects, so what [start_crumble] changes is seen through the generator's
    own list.  Inactive platforms are not in the filtered list and are passed
    over. *)
Fixpoint collisions_shared (p : t) (store : list Platform.t) : t * list Platform.t :=
  match store with
  | [] => (p, [])
  | platform :: rest =>
      let '(p1, platform1) :=
        if Platform.active platform then collide p platform else (p, platform) in
      let '(p2, rest1) := collisions_shared p1 rest in
      (p2, platform1 :: rest1)
  end.

(** The first half of [update]: the blocks that read the keys. *)
Definition controls (keys : Keys) (p : t) : t :=
  dash_mechanic keys (jumping keys (update_coyote (horizontal_movement keys p))).

(** The second half, up to [self.on_ground = False]. *)
Definition physics (p : t) : t :=
  set_on_ground false (apply_velocity (apply_gravity (cooldown (handle_dash p)))).

(** Everything [update] does before it looks at the platforms. *)
Definition move (keys : Keys) (p : t) : t := physics (controls keys p).

Definition update (keys : Keys) (platforms : list Platform.t) (p : t)
  : t * list Platform.t :=
  collisions (move keys p) platforms.

(** [update(keys, generator.get_active_platforms())], on the generator's list. *)
Definition update_shared (keys : Keys) (store : list Platform.t) (p : t)
  : t * list Platform.t :=
  collisions_shared (move keys p) store.

End WithConfig.

End Player.

(** ** Drawing from the process-wide random stream *)

Definition Rand (R : PyRandom) (A : Type) : Type := rng R -> A * rng R.

Definition ret {R : PyRandom} {A : Type} (a : A) : Rand R A := fun s => (a, s).

Definition bind {R : PyRandom} {A B : Type} (m : Rand R A) (k : A -> Rand R B)
  : Rand R B :=
  fun s => let '(a, s1) := m s in k a s1.

Declare Scope rand_scope.
Delimit Scope rand_scope with rand.
Notation "x <- m ;; k" := (bind m (fun x => k))
  (at level 61, m at next level, right associativity) : rand_scope.

(** ** class PlatformGenerator *)

Module PlatformGenerator.

Record t : Type := mk {
  seed : Z;
  platforms : list Platform.t;
  last_platform_x : Z;
  last_platform_y : Z;
  difficulty : Q
}.

Definition get_active_platforms (g : t) : list Platform.t :=
  filter Platform.active (platforms g).

Definition generate_starting_platform (g : t) : t :=
  let start := Platform.init 0 400 250 NORMAL in
  mk (seed g) (platforms g ++ [start]) 0 400 (difficulty g).

Section WithRandom.
Context (R : PyRandom) (cfg : Config).

Local Open Scope rand_scope.

Definition choose_platform_type (g : t) : Rand R PlatformType :=
  if Py.ltb (difficulty g) (5 # 10) then ret NORMAL
  else
    rand_val <- random_random R ;;
    ret (if Py.ltb rand_val (5 # 10) then NORMAL
         else if Py.ltb rand_val ((65 # 100) + difficulty g * (5 # 100)) then CRUMBLING
         else if Py.ltb rand_val ((8 # 10) + difficulty g * (3 # 100)) then BOUNCY
         else MOVING).

Definition generate_platform (g : t) : Rand R t :=
  let base_spacing := 150 in
  let spacing_variance := 50 + Py.int (difficulty g * 30) in
  r_spacing <- random_randint R (-50) spacing_variance ;;
  let spacing := Z.max 80 (base_spacing + r_spacing) in
  let vertical_variance := 80 + Py.int (difficulty g * 40) in
  vertical_offset <- random_randint R (- vertical_variance) vertical_variance ;;
  let new_x := last_platform_x g + spacing in
  let new_y := last_platform_y g + vertical_offset in
  let new_y := Z.max 150 (Z.min new_y (SCREEN_HEIGHT cfg - 100)) in
  let base_width := 150 in
  let width_reduction := Py.int (difficulty g * 20) in
  r_width <- random_randint R (-30) 30 ;;
  let width := Z.max 60 (base_width - width_reduction + r_width) in
  platform_type <- choose_platform_type g ;;
  let platform := Platform.init new_x new_y width platform_type in
  ret (mk (seed g) (platforms g ++ [platform]) new_x new_y
          (Py.min (inject_Z new_x / 1000) 5)).

(** [for _ in range(n): self.generate_platform()] *)
Fixpoint generate_platforms (n : nat) (g : t) : Rand R t :=
  match n with
  | O => ret g
  | S n' => g1 <- generate_platform g ;; generate_platforms n' g1
  end.

(** [PlatformGenerator(seed)]; [None] is the default argument.  A missing
    seed is drawn from the process-wide stream, and [random.seed] then
    replaces the state of that same stream. *)
Definition init (seed_arg : option Z) : Rand R t :=
  the_seed <- match seed_arg with
              | Some s => if s =? 0 then random_randint R 0 1000000 else ret s
              | None => random_randint R 0 1000000
              end ;;
  fun _ =>
    generate_platforms 15
      (generate_starting_platform (mk the_seed [] 0 400 0))
      (random_seed R the_seed).

(** [while self.last_platform_x < bound: self.generate_platform()], unrolled
    at most [fuel] times. *)
Fixpoint generate_while (fuel : nat) (bound : Q) (g : t) : Rand R t :=
  match fuel with
  | O => ret g
  | S fuel' =>
      if Py.ltb (inject_Z (last_platform_x g)) bound
      then g1 <- generate_platform g ;; generate_while fuel' bound g1
      else ret g
  end.

(** Every call of [generate_platform] moves [last_platform_x] at least 80 to
    the right, so this many iterations reach any [bound]. *)
Definition iterations (bound : Q) (g : t) : nat :=
  Z.to_nat ((Qceiling bound - last_platform_x g) / 80 + 1).

Definition update (player : Player.t) (g : t) : Rand R t :=
  let camera_x := (Player.x player - inject_Z (Py.floordiv (SCREEN_WIDTH cfg) 3))%Q in
  let kept := filter (fun p => Py.ltb (camera_x - 500) (inject_Z (Platform.x p)))
                     (platforms g) in
  let g1 := mk (seed g) kept (last_platform_x g) (last_platform_y g) (difficulty g) in
  let bound := (camera_x + inject_Z (SCREEN_WIDTH cfg) + 500)%Q in
  g2 <- generate_while (iterations bound g1) bound g1 ;;
  ret (mk (seed g2) (map Platform.update (platforms g2))
          (last_platform_x g2) (last_platform_y g2) (difficulty g2)).

End WithRandom.

End PlatformGenerator.

(** ** class Camera *)

Module Camera.

Record t : Type := mk {
  x : Q;
  y : Q;
  target_x : Q;
  target_y : Q;
  smoothness : Q
}.

Definition init : t := mk 0 0 0 0 (1 # 10).

Section WithConfig.
Context (cfg : Config).

Definition update (player : Player.t) (c : t) : t :=
  let tx := (Player.x player - inject_Z (Py.floordiv (SCREEN_WIDTH cfg) 3))%Q in
  let tx := Py.max 0 tx in
  let ty := (Player.y player - inject_Z (Py.floordiv (SCREEN_HEIGHT cfg) 2))%Q in
  mk (x c + (tx - x c) * smoothness c)%Q
     (y c + (ty - y c) * smoothness c)%Q
     tx ty (smoothness c).

End WithConfig.

Definition get_x (c : t) : Z := Py.int (x c).
Definition get_y (c : t) : Z := Py.int (y c).

End Camera.

(** ** class Game *)

Module Game.

(** The session; [random_state] is the state of the process-wide stream of
    the [random] module, which [reset_game] and the generator draw from. *)
Record t (R : PyRandom) : Type := mk {
  running : bool;
  player : Player.t;
  generator : PlatformGenerator.t;
  camera : Camera.t;
  score : Z;
  game_over : bool;
  random_state : rng R
}.

Arguments mk {R} _ _ _ _ _ _ _.
Arguments running {R} _.
Arguments player {R} _.
Arguments generator {R} _.
Arguments camera {R} _.
Arguments score {R} _.
Arguments game_over {R} _.
Arguments random_state {R} _.

(** The events [handle_events] reacts to. *)
Inductive event : Type := QUIT | KEYDOWN_ESCAPE | KEYDOWN_r | OTHER.

Section WithRandom.
Context (R : PyRandom) (cfg : Config).

(** The body of [reset_game]: it reads the random stream, keeps [running]
    and assigns every other attribute.  No statement of it raises. *)
Definition reset_game_body (running0 : bool) (r : rng R) : Py.result (t R) :=
  let '(seed, r1) := random_randint R 0 1000000 r in
  let '(gen, r2) := PlatformGenerator.init R cfg (Some seed) r1 in
  Py.Ok (mk running0 (Player.init 100 300) gen Camera.init 0 false r2).

Definition reset_game (g : t R) : Py.result (t R) :=
  reset_game_body (running g) (random_state g).

(** [Game()], started with the random stream in state [r]: the display is
    opened with the screen constants, [running] is set and [reset_game] is
    called.  The caption, the clock and the fonts do not depend on the
    constants. *)
Definition init (r : rng R) : Py.result (t R) :=
  match Pygame.display_set_mode (SCREEN_WIDTH cfg, SCREEN_HEIGHT cfg) with
  | Py.Ok _ => reset_game_body true r
  | Py.Raise message => Py.Raise message
  end.

Definition set_running (v : bool) (g : t R) : t R :=
  mk v (player g) (generator g) (camera g) (score g) (game_over g) (random_state g).

Definition handle_event (e : event) (g : t R) : Py.result (t R) :=
  match e with
  | QUIT => Py.Ok (set_running false g)
  | KEYDOWN_ESCAPE => Py.Ok (set_running false g)
  | KEYDOWN_r => if game_over g then reset_game g else Py.Ok g
  | OTHER => Py.Ok g
  end.

Fixpoint handle_events (events : list event) (g : t R) : Py.result (t R) :=
  match events with
  | [] => Py.Ok g
  | e :: rest =>
      match handle_event e g with
      | Py.Ok g1 => handle_events rest g1
      | Py.Raise m => Py.Raise m
      end
  end.

(** [update], with [keys] the value of [pygame.key.get_pressed()]. *)
Definition update (keys : Keys) (g : t R) : t R :=
  if game_over g then g
  else
    let '(gen1, r1) :=
      PlatformGenerator.update R cfg (player g) (generator g) (random_state g) in
    let '(player1, platforms1) :=
      Player.update_shared cfg keys (PlatformGenerator.platforms gen1) (player g) in
    let gen2 :=
      PlatformGenerator.mk (PlatformGenerator.seed gen1) platforms1
        (PlatformGenerator.last_platform_x gen1)
        (PlatformGenerator.last_platform_y gen1)
        (PlatformGenerator.difficulty gen1) in
    let camera1 := Camera.update cfg player1 (camera g) in
    let score1 := Z.max (score g) (Py.int (Player.x player1 / 10)) in
    let over :=
      if Py.ltb (inject_Z (Camera.get_y camera1 + SCREEN_HEIGHT cfg + 100))
                (Player.y player1)
      then true else game_over g in
    mk (running g) player1 gen2 camera1 score1 over r1.

End WithRandom.

End Game.

(** * Notions used in the statements *)

(** [n] calls of [Platform.update]. *)
Fixpoint platform_updates (n : nat) (p : Platform.t) : Platform.t :=
  match n with
  | O => p
  | S n' => platform_updates n' (Platform.update p)
  end.

(** The fields collision resolution never writes. *)
Definition same_controls (p q : Player.t) : Prop :=
  Player.x q = Player.x p
  /\ Player.vel_x q = Player.vel_x p
  /\ Player.dashing q = Player.dashing p
  /\ Player.dash_timer q = Player.dash_timer p
  /\ Player.dash_cooldown q = Player.dash_cooldown p
  /\ Player.coyote_timer q = Player.coyote_timer p.

(** Running [update] over a list of inputs, one per tick. *)
Fixpoint run (cfg : Config) (inputs : list (Keys * list Platform.t)) (p : Player.t)
  : Player.t :=
  match inputs with
  | [] => p
  | (keys, platforms) :: rest => run cfg rest (fst (Player.update cfg keys platforms p))
  end.

(** The sign of a number. *)
Definition Qsign (q : Q) : Z := Z.sgn (Qnum q).

(** A dash started by [keys] on the first of the given ticks is over after
    them, with a horizontal velocity of magnitude [PLAYER_SPEED] whose sign is
    that of the horizontal component of the dash direction. *)
Definition dash_out_sign_preserved (cfg : Config) (keys : Keys)
           (platforms : list Platform.t) (rest : list (Keys * list Platform.t))
           (p : Player.t) : Prop :=
  let q := run cfg ((keys, platforms) :: rest) p in
  Player.dashing q = false
  /\ (Qabs (Player.vel_x q) == inject_Z (PLAYER_SPEED cfg))%Q
  /\ Qsign (Player.vel_x q) = Z.sgn (fst (Player.dash_direction keys)).

Definition keys_dash_up : Keys :=
  {| K_LEFT := false; K_RIGHT := false; K_UP := true; K_DOWN := false;
     K_z := false; K_x := true |}.

Definition keys_dash_up_right : Keys :=
  {| K_LEFT := false; K_RIGHT := true; K_UP := true; K_DOWN := false;
     K_z := false; K_x := true |}.

Definition keys_jump : Keys :=
  {| K_LEFT := false; K_RIGHT := false; K_UP := false; K_DOWN := false;
     K_z := true; K_x := false |}.

(** [n] ticks with no key held and no platform in reach. *)
Definition idle (n : nat) : list (Keys * list Platform.t) := repeat (no_keys, []) n.

(** The state of the player after the jumping block of [update]. *)
Definition after_jump_block (cfg : Config) (keys : Keys) (p : Player.t) : Player.t :=
  Player.jumping cfg keys
    (Player.update_coyote cfg (Player.horizontal_movement cfg keys p)).

(** The condition of the jumping block, as [update] evaluates it. *)
Definition jumps (cfg : Config) (keys : Keys) (p : Player.t) : bool :=
  Player.jump_triggered keys
    (Player.update_coyote cfg (Player.horizontal_movement cfg keys p)).

(** No tick of [inputs] ends with the player on the ground. *)
Fixpoint airborne (cfg : Config) (inputs : list (Keys * list Platform.t))
         (p : Player.t) : Prop :=
  match inputs with
  | [] => True
  | (keys, platforms) :: rest =>
      let p1 := fst (Player.update cfg keys platforms p) in
      Player.on_ground p1 = false /\ airborne cfg rest p1
  end.

(** The jump key is not held on any tick of [inputs]. *)
Definition no_jump_input (inputs : list (Keys * list Platform.t)) : Prop :=
  Forall (fun i => K_z (fst i) = false) inputs.

(** A player on the ground at the start of a tick, as after a landing on a
    crumbling platform that has since given way. *)
Definition grounded_player : Player.t := Player.set_on_ground true (Player.init 100 300).

(** A jump input succeeds on each of the [COYOTE_TIME] ticks that follow the
    tick on which the player left the ground (tick 0, which starts grounded
    and ends in the air; the player drifts with no key held in between). *)
Definition jump_succeeds_within_window (cfg : Config) (p0 : Player.t) : Prop :=
  forall k : nat,
    (1 <= k)%nat -> Z.of_nat k <= COYOTE_TIME cfg ->
    jumps cfg keys_jump (run cfg (idle k) p0) = true.

(** [clamp(v, lo, hi)] *)
Definition clamp (v lo hi : Q) : Q :=
  if Py.ltb v lo then lo else if Py.ltb hi v then hi else v.

(** The generator states the program can be in: after construction, and after
    any further calls of [generate_platform] and [update], each made with the
    random stream in whatever state it then has. *)
Inductive reachable (R : PyRandom) (cfg : Config) : PlatformGenerator.t -> Prop :=
| reachable_init (seed_arg : option Z) (r : rng R) :
    reachable R cfg (fst (PlatformGenerator.init R cfg seed_arg r))
| reachable_generate (g : PlatformGenerator.t) (r : rng R) :
    reachable R cfg g ->
    reachable R cfg (fst (PlatformGenerator.generate_platform R cfg g r))
| reachable_update (g : PlatformGenerator.t) (player : Player.t) (r : rng R) :
    reachable R cfg g ->
    reachable R cfg (fst (PlatformGenerator.update R cfg player g r)).

(** What identifies a generated platform: x, y, width and type. *)
Definition shape (p : Platform.t) : Z * Z * Z * PlatformType :=
  (Platform.x p, Platform.y p, Platform.width p, Platform.platform_type p).

(** A generator constructed with [seed_arg] while the random stream is in
    state [r], followed by [n] calls of [generate_platform]. *)
Definition generator_run (R : PyRandom) (cfg : Config) (seed_arg : option Z) (n : nat)
  : Rand R PlatformGenerator.t :=
  bind (PlatformGenerator.init R cfg seed_arg)
       (PlatformGenerator.generate_platforms R cfg n).

(** The relation between [difficulty] and [last_platform_x]. *)
Definition difficulty_tracks_frontier (g : PlatformGenerator.t) : Prop :=
  0 <= PlatformGenerator.last_platform_x g
  /\ (PlatformGenerator.difficulty g ==
       clamp (inject_Z (PlatformGenerator.last_platform_x g) / 1000) 0 5)%Q.

(** The camera position [update] computes from the player. *)
Definition camera_x_of (cfg : Config) (player : Player.t) : Q :=
  Player.x player - inject_Z (Py.floordiv (SCREEN_WIDTH cfg) 3).

(** The test of the list comprehension in [update]. *)
Definition kept_by_update (cfg : Config) (player : Player.t) (p : Platform.t) : bool :=
  Py.ltb (camera_x_of cfg player - 500) (inject_Z (Platform.x p)).

(** A platform's x is strictly greater than [(P - screen_width / 3) - 500]. *)
Definition beyond_prune_line (cfg : Config) (player : Player.t) (p : Platform.t) : Prop :=
  (Player.x player - inject_Z (SCREEN_WIDTH cfg) / 3 - 500 < inject_Z (Platform.x p))%Q.

(** The test [update] makes at the end of a tick: the player is below the
    camera position as [get_y] reports it, by more than the screen height
    plus 100. *)
Definition fell_below_camera {R : PyRandom} (cfg : Config) (g : Game.t R) : bool :=
  Py.ltb (inject_Z (Camera.get_y (Game.camera g) + SCREEN_HEIGHT cfg + 100))
         (Player.y (Game.player g)).

(** [player.y] exceeds [camera.y + screen_height + 100]. *)
Definition exceeds_camera_line {R : PyRandom} (cfg : Config) (g : Game.t R) : Prop :=
  (Camera.y (Game.camera g) + inject_Z (SCREEN_HEIGHT cfg) + 100
   < Player.y (Game.player g))%Q.

(** One [update] per element of [inputs]. *)
Fixpoint updates {R : PyRandom} (cfg : Config) (inputs : list Keys) (g : Game.t R)
  : Game.t R :=
  match inputs with
  | [] => g
  | keys :: rest => updates cfg rest (Game.update R cfg keys g)
  end.

(** A session as [reset_game] leaves it. *)
Definition fresh_session {R : PyRandom} (g : Game.t R) : Prop :=
  Game.player g = Player.init 100 300
  /\ Game.camera g = Camera.init
  /\ Game.score g = 0
  /\ Game.game_over g = false.

(** A session in which the player is falling below the screen: not yet over,
    since [951.1 <= int(256.5) + 600 + 100]. *)
Definition falling_session : Game.t Lcg.R :=
  Game.mk true
    (Player.mk 100 (9511 # 10) 30 40 0 49 false 0 0 false 0)
    (fst (PlatformGenerator.init Lcg.R reference_config (Some 42) 7))
    (Camera.mk 0 (2565 # 10) 0 (2565 # 10) (1 # 10))
    10 false
    (snd (PlatformGenerator.init Lcg.R reference_config (Some 42) 7)).




(** The horizontal speed never exceeds the dash speed of the source. *)
Definition speed_bounded (p : Player.t) : Prop :=
  (- (20) <= Player.vel_x p /\ Player.vel_x p <= 20)%Q.

(** The frontier is close enough behind the pruning line of the next
    [update] for every generated platform to land beyond it. *)
Definition frontier_in_reach (cfg : Config) (player : Player.t)
           (g : PlatformGenerator.t) : Prop :=
  (camera_x_of cfg player - 500 < inject_Z (PlatformGenerator.last_platform_x g + 80))%Q.

(** The sessions of the program: started by [Game()], then driven by
    [handle_events] and [update]. *)
Inductive playing (R : PyRandom) (cfg : Config) : Game.t R -> Prop :=
| playing_init (r : rng R) (g : Game.t R) :
    Game.init R cfg r = Py.Ok g -> playing R cfg g
| playing_event (e : Game.event) (g g' : Game.t R) :
    playing R cfg g -> Game.handle_event R cfg e g = Py.Ok g' -> playing R cfg g'
| playing_update (keys : Keys) (g : Game.t R) :
    playing R cfg g -> playing R cfg (Game.update R cfg keys g).

(** The swing of a MOVING platform: it carries the motion attributes [init]
    gives it, and its displacement from [original_y] is within the range plus
    one step on the side it is heading to. *)
Definition swinging (p : Platform.t) : Prop :=
  exists m : Platform.motion,
    Platform.moving p = Some m
    /\ Platform.move_range m = 100
    /\ Platform.move_speed m = 2
    /\ ((Platform.move_direction m = 1
         /\ -102 <= Platform.y p - Platform.original_y m <= 100)
        \/ (Platform.move_direction m = -1
            /\ -100 <= Platform.y p - Platform.original_y m <= 102)).

(** Every platform of the list lies at least 80 to the right of the ones
    before it. *)
Fixpoint spaced (l : list Platform.t) : Prop :=
  match l with
  | [] => True
  | p :: rest => Forall (fun q => Platform.x p + 80 <= Platform.x q) rest /\ spaced rest
  end.

(** The lowest height the generator places a platform at: the lower clamp of
    [generate_platform], or the height of the starting platform. *)
Definition lowest_y (cfg : Config) : Z :=
  Z.max 400 (Z.max 150 (SCREEN_HEIGHT cfg - 100)).

(** What holds of every platform the program keeps. *)
Definition platform_ok (cfg : Config) (p : Platform.t) : Prop :=
  60 <= Platform.width p
  /\ Platform.height p = 20
  /\ 0 <= Platform.crumble_timer p <= 30
  /\ (Platform.platform_type p <> CRUMBLING ->
      Platform.active p = true /\ Platform.crumble_timer p = 0)
  /\ match Platform.platform_type p with
     | MOVING =>
         swinging p
         /\ forall m, Platform.moving p = Some m ->
                      150 <= Platform.original_y m <= lowest_y cfg
     | _ => 150 <= Platform.y p <= lowest_y cfg
     end.

(** What holds of the generator in every state of the program. *)
Definition generator_ok (cfg : Config) (g : PlatformGenerator.t) : Prop :=
  Forall (platform_ok cfg) (PlatformGenerator.platforms g)
  /\ spaced (PlatformGenerator.platforms g)
  /\ Forall (fun p => Platform.x p <= PlatformGenerator.last_platform_x g)
            (PlatformGenerator.platforms g)
  /\ Forall (fun p => Platform.x p < 500 -> Platform.platform_type p = NORMAL)
            (PlatformGenerator.platforms g)
  /\ difficulty_tracks_frontier g.

(** What the collision loop may do to a platform: nothing, or start the
    countdown of an active crumbling one. *)
Definition touched (a b : Platform.t) : Prop :=
  b = a
  \/ (Platform.platform_type a = CRUMBLING /\ Platform.active a = true
      /\ b = Platform.start_crumble a).

(** The generators the program works with: those reached through the
    generator's own operations, and those of the sessions. *)
Definition in_use (R : PyRandom) (cfg : Config) (g : PlatformGenerator.t) : Prop :=
  reachable R cfg g \/ exists s : Game.t R, playing R cfg s /\ Game.generator s = g.

(** The generator built with seed 42 on the stand-in stream. *)
Definition generator_42 : PlatformGenerator.t :=
  fst (PlatformGenerator.init Lcg.R reference_config (Some 42) 7).

(** The ranges the timers of the player stay in. *)
Definition timers_ok (cfg : Config) (p : Player.t) : Prop :=
  0 <= Player.coyote_timer p <= COYOTE_TIME cfg
  /\ 0 <= Player.dash_cooldown p <= 60
  /\ 0 <= Player.dash_timer p <= DASH_DURATION cfg
  /\ (Player.dashing p = true -> 0 < Player.dash_timer p).

(** The condition of the dash block, as [update] evaluates it. *)
Definition dashes (cfg : Config) (keys : Keys) (p : Player.t) : bool :=
  Player.dash_triggered keys (after_jump_block cfg keys p).

(** The player is over the platform: their horizontal extents overlap. *)
Definition over_platform (p : Player.t) (platform : Platform.t) : Prop :=
  (Player.x p < inject_Z (Platform.x platform + Platform.width platform))%Q
  /\ (inject_Z (Platform.x platform) < Player.x p + inject_Z (Player.width p))%Q.

(** The player stands on the platform: at rest, with its bottom edge on the
    top of the platform. *)
Definition stands_on (p : Player.t) (platform : Platform.t) : Prop :=
  over_platform p platform
  /\ Player.dashing p = false
  /\ (Player.vel_y p == 0)%Q
  /\ (Player.y p == inject_Z (Platform.y platform) - inject_Z (Player.height p))%Q.

(** The camera after one [update] per element of [players], the positions
    the player is at on successive ticks. *)
Fixpoint follow (cfg : Config) (players : list Player.t) (c : Camera.t) : Camera.t :=
  match players with
  | [] => c
  | player :: rest => follow cfg rest (Camera.update cfg player c)
  end.

(** * Properties *)

(** ** Comparisons *)

Lemma ltb_lt (a b : Q) : Py.ltb a b = true <-> (a < b)%Q.
Proof.
  unfold Py.ltb. rewrite negb_true_iff.
  split; intro H.
  - apply Qnot_le_lt. intro Hle. apply Qle_bool_iff in Hle. congruence.
  - destruct (Qle_bool b a) eqn:E; trivial.
    apply Qle_bool_iff in E. exfalso. apply (Qlt_not_le _ _ H E).
Qed.

Lemma ltb_ge (a b : Q) : Py.ltb a b = false <-> (b <= a)%Q.
Proof.
  unfold Py.ltb. rewrite negb_false_iff. apply Qle_bool_iff.
Qed.

Lemma leb_le (a b : Q) : Py.leb a b = true <-> (a <= b)%Q.
Proof. apply Qle_bool_iff. Qed.

(** ** Platform.start_crumble *)

(** The countdown of a crumbling platform, once started, is at [30 - n]
    after [n] updates, as long as that is positive. *)
Lemma crumble_countdown (n : nat) (p : Platform.t) :
  Platform.platform_type p = CRUMBLING ->
  Z.of_nat n < Platform.crumble_timer p ->
  Platform.crumble_timer (platform_updates n p) = Platform.crumble_timer p - Z.of_nat n
  /\ Platform.platform_type (platform_updates n p) = CRUMBLING.
Proof.
  revert p. induction n as [|n IH]; intros p Hty Hlt.
  - simpl. split; [lia | assumption].
  - cbn [platform_updates].
    assert (Hstep : Platform.crumble_timer (Platform.update p) = Platform.crumble_timer p - 1
                    /\ Platform.platform_type (Platform.update p) = CRUMBLING).
    { unfold Platform.update, Platform.update_moving, Platform.update_crumbling.
      rewrite Hty. cbn [PlatformType_eqb andb].
      destruct (0 <? Platform.crumble_timer p) eqn:E; [|apply Z.ltb_ge in E; lia].
      cbn. destruct (Platform.crumble_timer p - 1 <=? 0) eqn:E2; cbn; rewrite ?Hty; cbn; auto. }
    destruct Hstep as [Ht Hc].
    destruct (IH (Platform.update p) Hc ltac:(lia)) as [IH1 IH2].
    split; [rewrite IH1; lia | assumption].
Qed.

(** C7. While the decay countdown of a crumbling platform is running
    ([crumble_timer > 0]), a further call of [start_crumble] leaves
    [crumble_timer], and the whole platform, unchanged; in particular the
    second of two calls in succession changes nothing. *)
Theorem start_crumble_idempotent (p : Platform.t) :
  Platform.platform_type p = CRUMBLING ->
  0 < Platform.crumble_timer p ->
  Platform.crumble_timer (Platform.start_crumble p) = Platform.crumble_timer p
  /\ Platform.start_crumble p = p
  /\ Platform.start_crumble (Platform.start_crumble p) = Platform.start_crumble p.
Proof.
  intros _ Hrun.
  assert (E : Platform.start_crumble p = p).
  { unfold Platform.start_crumble.
    destruct (Platform.crumble_timer p =? 0) eqn:E0; [|reflexivity].
    apply Z.eqb_eq in E0. lia. }
  rewrite !E. auto.
Qed.

Lemma start_crumble_idempotent_witness :
  let p := platform_updates 7 (Platform.start_crumble (Platform.init 300 400 120 CRUMBLING)) in
  Platform.crumble_timer p = 23
  /\ Platform.crumble_timer (Platform.start_crumble p) = Platform.crumble_timer p.
Proof.
  split; [reflexivity|].
  apply (start_crumble_idempotent
           (platform_updates 7 (Platform.start_crumble (Platform.init 300 400 120 CRUMBLING))));
    [reflexivity | vm_compute; reflexivity].
Defined.

(** ** Player.handle_collision *)

(** C6. Whenever the resolution of a contact with a BOUNCY platform takes the
    landing branch (which needs [vel_y > 0]), it leaves [on_ground = False]
    and [vel_y = JUMP_STRENGTH * 1.5], whatever the incoming [vel_y] was. *)
Theorem bouncy_landing (cfg : Config) (p : Player.t) (platform : Platform.t) :
  Platform.platform_type platform = BOUNCY ->
  Player.lands_on p platform = true ->
  let p' := fst (Player.handle_collision cfg p platform) in
  (0 < Player.vel_y p)%Q
  /\ Player.on_ground p' = false
  /\ Player.vel_y p' = (inject_Z (JUMP_STRENGTH cfg) * (15 # 10))%Q.
Proof.
  intros Hty Hland. unfold Player.handle_collision. rewrite Hland, Hty. cbn.
  split; [|split; reflexivity].
  unfold Player.lands_on in Hland. apply andb_true_iff in Hland.
  apply ltb_lt. apply Hland.
Qed.

Lemma bouncy_landing_witness :
  let p := Player.mk 120 (3675 # 10) 30 40 6 (95 # 10) false 0 0 false 0 in
  let platform := Platform.init 100 400 150 BOUNCY in
  Player.check_collision p platform = true
  /\ Player.on_ground (fst (Player.handle_collision reference_config p platform)) = false
  /\ (Player.vel_y (fst (Player.handle_collision reference_config p platform)) == - (225 # 10))%Q.
Proof.
  split; [reflexivity|].
  destruct (bouncy_landing reference_config
              (Player.mk 120 (3675 # 10) 30 40 6 (95 # 10) false 0 0 false 0)
              (Platform.init 100 400 150 BOUNCY) eq_refl eq_refl) as (_ & Hg & Hv).
  split; [exact Hg | rewrite Hv; reflexivity].
Defined.

(** ** Player.update: what the collision loop leaves alone *)

Lemma same_controls_refl (p : Player.t) : same_controls p p.
Proof. unfold same_controls. auto 7. Qed.

Lemma same_controls_trans (p q r : Player.t) :
  same_controls p q -> same_controls q r -> same_controls p r.
Proof.
  unfold same_controls. intros (a1 & a2 & a3 & a4 & a5 & a6) (b1 & b2 & b3 & b4 & b5 & b6).
  repeat split; congruence.
Qed.

Lemma handle_collision_controls (cfg : Config) (p : Player.t) (platform : Platform.t) :
  same_controls p (fst (Player.handle_collision cfg p platform)).
Proof.
  unfold Player.handle_collision.
  destruct (Player.lands_on p platform); [|apply same_controls_refl].
  destruct (Platform.platform_type platform); cbn; unfold same_controls; cbn; auto 7.
Qed.

Lemma collide_controls (cfg : Config) (p : Player.t) (platform : Platform.t) :
  same_controls p (fst (Player.collide cfg p platform)).
Proof.
  unfold Player.collide.
  destruct (Player.check_collision p platform);
    [apply handle_collision_controls | apply same_controls_refl].
Qed.

Lemma collisions_controls (cfg : Config) (platforms : list Platform.t) (p : Player.t) :
  same_controls p (fst (Player.collisions cfg p platforms)).
Proof.
  revert p. induction platforms as [|platform rest IH]; intro p; cbn [Player.collisions].
  - apply same_controls_refl.
  - pose proof (collide_controls cfg p platform) as H1.
    destruct (Player.collide cfg p platform) as [p1 platform1]. cbn [fst] in H1.
    pose proof (IH p1) as H2.
    destruct (Player.collisions cfg p1 rest) as [p2 rest1]. cbn [fst] in *.
    eapply same_controls_trans; eassumption.
Qed.

(** ** The platforms handed to the player are the generator's own *)

Lemma collide_active (cfg : Config) (p : Player.t) (platform : Platform.t) :
  Platform.active (snd (Player.collide cfg p platform)) = Platform.active platform.
Proof.
  unfold Player.collide, Player.handle_collision, Platform.start_crumble.
  destruct (Player.check_collision p platform); [|reflexivity].
  destruct (Player.lands_on p platform); [|reflexivity].
  destruct (Platform.platform_type platform); cbn; try reflexivity.
  destruct (Platform.crumble_timer platform =? 0); reflexivity.
Qed.

(** Running the collision loop on the generator's list, passing over the
    inactive platforms, is running it on [get_active_platforms()]: the player
    ends up the same, and the active platforms of the list are the platform
    objects as the loop left them. *)
Lemma collisions_shared_filter (cfg : Config) (store : list Platform.t) :
  forall p : Player.t,
  fst (Player.collisions_shared cfg p store)
    = fst (Player.collisions cfg p (filter Platform.active store))
  /\ filter Platform.active (snd (Player.collisions_shared cfg p store))
     = snd (Player.collisions cfg p (filter Platform.active store))
  /\ length (snd (Player.collisions_shared cfg p store)) = length store.
Proof.
  induction store as [|platform rest IH]; intro p; cbn [Player.collisions_shared filter].
  - cbn. auto.
  - destruct (Platform.active platform) eqn:A.
    + cbn [Player.collisions].
      pose proof (collide_active cfg p platform) as CA.
      destruct (Player.collide cfg p platform) as [p1 platform1]. cbn [snd] in CA.
      destruct (IH p1) as (I1 & I2 & I3).
      destruct (Player.collisions_shared cfg p1 rest) as [p2 rest1].
      destruct (Player.collisions cfg p1 (filter Platform.active rest)) as [p3 rest3].
      cbn [fst snd filter length] in *. rewrite CA, A. subst. auto.
    + destruct (IH p) as (I1 & I2 & I3).
      destruct (Player.collisions_shared cfg p rest) as [p2 rest1].
      cbn [fst snd filter length] in *. rewrite A. auto.
Qed.

(** [Game.update] hands [get_active_platforms()] to [Player.update]. *)
Lemma update_shared_is_update (cfg : Config) (keys : Keys) (g : PlatformGenerator.t)
      (p : Player.t) :
  let shared := Player.update_shared cfg keys (PlatformGenerator.platforms g) p in
  let direct := Player.update cfg keys (PlatformGenerator.get_active_platforms g) p in
  fst shared = fst direct /\ filter Platform.active (snd shared) = snd direct.
Proof.
  unfold Player.update_shared, Player.update, PlatformGenerator.get_active_platforms.
  destruct (collisions_shared_filter cfg (PlatformGenerator.platforms g)
              (Player.move cfg keys p)) as (E1 & E2 & _).
  auto.
Qed.

(** ** The dash *)

(** While a dash runs, the blocks that read the keys change neither the dash
    nor the horizontal velocity. *)
Lemma controls_dashing (cfg : Config) (keys : Keys) (p : Player.t) :
  Player.dashing p = true ->
  let q := Player.controls cfg keys p in
  Player.dashing q = true
  /\ Player.dash_timer q = Player.dash_timer p
  /\ Player.vel_x q = Player.vel_x p.
Proof.
  intros Hd. unfold Player.controls, Player.horizontal_movement. rewrite Hd.
  unfold Player.dash_mechanic, Player.dash_triggered, Player.jumping, Player.update_coyote.
  assert (Hnodash : forall p', Player.dashing p' = true ->
            (K_x keys && (Player.dash_cooldown p' <=? 0) && negb (Player.dashing p')) = false).
  { intros p' E. rewrite E. cbn. apply andb_false_r. }
  destruct (Player.on_ground p); [| destruct (0 <? Player.coyote_timer p)];
    match goal with
    | |- context [if Player.jump_triggered ?k ?a then _ else _] =>
        destruct (Player.jump_triggered k a)
    end;
    rewrite Hnodash by (cbn; assumption); cbn; auto.
Qed.

(** The second half of a tick in the middle of a dash. *)
Lemma physics_dash_continues (cfg : Config) (p : Player.t) :
  Player.dashing p = true ->
  1 < Player.dash_timer p ->
  let q := Player.physics cfg p in
  Player.dashing q = true
  /\ Player.dash_timer q = Player.dash_timer p - 1
  /\ Player.vel_x q = Player.vel_x p.
Proof.
  intros Hd Ht. unfold Player.physics, Player.handle_dash. rewrite Hd. cbn.
  destruct (Player.dash_timer p - 1 <=? 0) eqn:E; [apply Z.leb_le in E; lia|].
  unfold Player.cooldown, Player.apply_gravity.
  destruct (0 <? _); cbn; rewrite Hd; cbn; auto.
Qed.

(** The second half of the tick on which the dash timer reaches zero. *)
Lemma physics_dash_ends (cfg : Config) (p : Player.t) :
  Player.dashing p = true ->
  Player.dash_timer p <= 1 ->
  let q := Player.physics cfg p in
  Player.dashing q = false
  /\ Player.vel_x q = (if Py.ltb 0 (Player.vel_x p)
                       then inject_Z (PLAYER_SPEED cfg)
                       else - inject_Z (PLAYER_SPEED cfg))%Q.
Proof.
  intros Hd Ht. unfold Player.physics, Player.handle_dash. rewrite Hd. cbn.
  destruct (Player.dash_timer p - 1 <=? 0) eqn:E; [|apply Z.leb_gt in E; lia].
  unfold Player.cooldown, Player.apply_gravity.
  destruct (0 <? _); cbn; auto.
Qed.

Lemma update_controls (cfg : Config) (keys : Keys) (platforms : list Platform.t)
      (p : Player.t) :
  same_controls (Player.physics cfg (Player.controls cfg keys p))
                (fst (Player.update cfg keys platforms p)).
Proof. unfold Player.update, Player.move. apply collisions_controls. Qed.

(** A tick in the middle of a dash: the timer goes down by one and the
    horizontal velocity is kept, whatever the keys and the platforms. *)
Lemma dash_continues (cfg : Config) (keys : Keys) (platforms : list Platform.t)
      (p : Player.t) :
  Player.dashing p = true ->
  1 < Player.dash_timer p ->
  let q := fst (Player.update cfg keys platforms p) in
  Player.dashing q = true
  /\ Player.dash_timer q = Player.dash_timer p - 1
  /\ Player.vel_x q = Player.vel_x p.
Proof.
  intros Hd Ht q. subst q.
  destruct (update_controls cfg keys platforms p) as (_ & Hvx & Hdash & Htimer & _).
  destruct (controls_dashing cfg keys p Hd) as (C1 & C2 & C3).
  destruct (physics_dash_continues cfg (Player.controls cfg keys p) C1 ltac:(lia))
    as (P1 & P2 & P3).
  rewrite Hvx, Hdash, Htimer. repeat split; congruence.
Qed.

(** The tick on which [dash_timer] reaches zero: the dash ends and the
    horizontal velocity becomes [PLAYER_SPEED] when it was positive and
    [-PLAYER_SPEED] otherwise. *)
Lemma dash_ends (cfg : Config) (keys : Keys) (platforms : list Platform.t)
      (p : Player.t) :
  Player.dashing p = true ->
  Player.dash_timer p <= 1 ->
  let q := fst (Player.update cfg keys platforms p) in
  Player.dashing q = false
  /\ Player.vel_x q = (if Py.ltb 0 (Player.vel_x p)
                       then inject_Z (PLAYER_SPEED cfg)
                       else - inject_Z (PLAYER_SPEED cfg))%Q.
Proof.
  intros Hd Ht q. subst q.
  destruct (update_controls cfg keys platforms p) as (_ & Hvx & Hdash & _).
  destruct (controls_dashing cfg keys p Hd) as (C1 & C2 & C3).
  destruct (physics_dash_ends cfg (Player.controls cfg keys p) C1 ltac:(lia))
    as (P1 & P2).
  rewrite Hvx, Hdash, P2, C3. auto.
Qed.

(** A dash that has [length inputs] ticks left runs for exactly that many
    updates and then leaves the dash-out velocity. *)
Lemma dash_runs_out (cfg : Config) (inputs : list (Keys * list Platform.t)) :
  forall p : Player.t,
  Player.dashing p = true ->
  inputs <> [] ->
  Player.dash_timer p = Z.of_nat (length inputs) ->
  (forall n, (n < length inputs)%nat ->
             Player.dashing (run cfg (firstn n inputs) p) = true)
  /\ Player.dashing (run cfg inputs p) = false
  /\ Player.vel_x (run cfg inputs p) =
       (if Py.ltb 0 (Player.vel_x p)
        then inject_Z (PLAYER_SPEED cfg)
        else - inject_Z (PLAYER_SPEED cfg))%Q.
Proof.
  induction inputs as [|[keys platforms] rest IH]; intros p Hd Hne Ht; [congruence|].
  destruct rest as [|next rest'].
  - cbn [run]. cbn in Ht.
    destruct (dash_ends cfg keys platforms p Hd ltac:(lia)) as (E1 & E2).
    split; [|split; assumption].
    intros n Hn. cbn in Hn. assert (n = 0%nat) by lia. subst n. exact Hd.
  - cbn [run]. cbn [length] in Ht.
    destruct (dash_continues cfg keys platforms p Hd ltac:(lia)) as (E1 & E2 & E3).
    destruct (IH (fst (Player.update cfg keys platforms p)) E1 ltac:(discriminate)
                 ltac:(rewrite E2, Ht; cbn [length]; lia)) as (I1 & I2 & I3).
    rewrite E3 in I3.
    split; [|split; assumption].
    intros [|n] Hn; [exact Hd|].
    cbn [firstn run]. apply I1. cbn [length] in *. lia.
Qed.

(** The direction of a dash is normalised by a positive magnitude, so the
    horizontal component of the unit vector has the sign of [dash_x]. *)
Lemma dash_direction_unit (keys : Keys) :
  let d := Player.dash_direction keys in
  let magnitude := Py.sqrt (inject_Z (fst d ^ 2 + snd d ^ 2)) in
  Py.ltb 0 magnitude = true
  /\ (0 < fst d -> (0 < inject_Z (fst d) / magnitude)%Q)
  /\ (fst d < 0 -> (inject_Z (fst d) / magnitude < 0)%Q).
Proof.
  destruct keys as [l r u d z x]. unfold Player.dash_direction. cbn [K_LEFT K_RIGHT K_UP K_DOWN].
  destruct l, r, u, d; cbn [fst snd];
    (split; [vm_compute; reflexivity
            | split; intro H; try (exfalso; vm_compute in H; discriminate);
              vm_compute; reflexivity]).
Qed.

Lemma Qmult_neg_pos (a b : Q) : (a < 0 -> 0 < b -> a * b < 0)%Q.
Proof.
  destruct a as [an ad], b as [bn bd]. unfold Qlt. cbn. nia.
Qed.

Lemma before_dash_block (cfg : Config) (keys : Keys) (p : Player.t) :
  let q := Player.jumping cfg keys
             (Player.update_coyote cfg (Player.horizontal_movement cfg keys p)) in
  Player.dashing q = Player.dashing p
  /\ Player.dash_cooldown q = Player.dash_cooldown p.
Proof.
  unfold Player.jumping, Player.update_coyote, Player.horizontal_movement.
  destruct (Player.dashing p) eqn:Hd, (K_LEFT keys), (K_RIGHT keys), (Player.on_ground p);
    cbn;
    repeat match goal with
           | |- context [if ?c then _ else _] => destruct c; cbn
           end; auto.
Qed.

(** The first half of the tick that starts a dash. *)
Lemma controls_dash_starts (cfg : Config) (keys : Keys) (p : Player.t) :
  0 < DASH_SPEED cfg ->
  K_x keys = true ->
  Player.dash_cooldown p <= 0 ->
  Player.dashing p = false ->
  let q := Player.controls cfg keys p in
  let dash_x := fst (Player.dash_direction keys) in
  Player.dashing q = true
  /\ Player.dash_timer q = DASH_DURATION cfg
  /\ (0 < dash_x -> (0 < Player.vel_x q)%Q)
  /\ (dash_x < 0 -> (Player.vel_x q < 0)%Q).
Proof.
  intros Hspeed Hx Hcool Hnd. unfold Player.controls.
  destruct (before_dash_block cfg keys p) as (B1 & B2).
  set (p' := Player.jumping cfg keys _) in *.
  unfold Player.dash_mechanic, Player.dash_triggered.
  rewrite Hx, B1, B2, Hnd.
  destruct (Player.dash_cooldown p <=? 0) eqn:E; [|apply Z.leb_gt in E; lia].
  cbn [andb negb].
  pose proof (dash_direction_unit keys) as (M & Hpos & Hneg).
  destruct (Player.dash_direction keys) as [dx dy]. cbn [fst snd] in *.
  rewrite M. cbn.
  assert (Hs : (0 < inject_Z (DASH_SPEED cfg))%Q) by (unfold Qlt; cbn; lia).
  repeat split.
  - intro H. apply Qmult_lt_0_compat; auto.
  - intro H. apply Qmult_neg_pos; auto.
Qed.

(** C2, as amended.  A dash whose direction has a non-zero horizontal
    component ([dash_x] is 1 or -1) lasts [DASH_DURATION] updates; on the
    update on which [dash_timer] reaches zero the dash ends and the
    horizontal velocity is set to [PLAYER_SPEED] for a dash to the right and
    to [-PLAYER_SPEED] for a dash to the left, whatever keys are held and
    whatever platforms are met during the dash. *)
Theorem dash_out_keeps_direction
        (cfg : Config) (p : Player.t) (keys : Keys) (platforms : list Platform.t)
        (rest : list (Keys * list Platform.t)) :
  0 < DASH_SPEED cfg ->
  0 < DASH_DURATION cfg ->
  K_x keys = true ->
  Player.dash_cooldown p <= 0 ->
  Player.dashing p = false ->
  fst (Player.dash_direction keys) <> 0 ->
  Z.of_nat (length rest) = DASH_DURATION cfg - 1 ->
  let inputs := (keys, platforms) :: rest in
  (forall n, (0 < n < length inputs)%nat ->
             Player.dashing (run cfg (firstn n inputs) p) = true)
  /\ Player.dashing (run cfg inputs p) = false
  /\ Player.vel_x (run cfg inputs p) =
       (if 0 <? fst (Player.dash_direction keys)
        then inject_Z (PLAYER_SPEED cfg)
        else - inject_Z (PLAYER_SPEED cfg))%Q.
Proof.
  intros Hspeed Hdur Hx Hcool Hnd Hdir Hlen inputs. subst inputs.
  destruct (controls_dash_starts cfg keys p Hspeed Hx Hcool Hnd) as (S1 & S2 & S3 & S4).
  destruct (update_controls cfg keys platforms p) as (_ & Hvx & Hdash & Htimer & _).
  set (c := Player.controls cfg keys p) in *.
  set (p1 := fst (Player.update cfg keys platforms p)) in *.
  assert (Hsign : Py.ltb 0 (Player.vel_x c) = (0 <? fst (Player.dash_direction keys))).
  { destruct (0 <? fst (Player.dash_direction keys)) eqn:E.
    - apply Z.ltb_lt in E. apply ltb_lt. auto.
    - apply Z.ltb_ge in E. apply ltb_ge. apply Qlt_le_weak. apply S4. lia. }
  destruct rest as [|next rest'].
  - (* the dash ends on the tick that starts it *)
    cbn [length] in Hlen.
    destruct (physics_dash_ends cfg c S1 ltac:(lia)) as (E1 & E2).
    cbn [run]. fold p1. rewrite Hvx, Hdash, E2, Hsign.
    split; [|auto]. intros n Hn. cbn in Hn. lia.
  - destruct (physics_dash_continues cfg c S1 ltac:(cbn [length] in Hlen; lia))
      as (E1 & E2 & E3).
    assert (D1 : Player.dashing p1 = true) by congruence.
    assert (D2 : Player.dash_timer p1 = Z.of_nat (length (next :: rest'))) by lia.
    destruct (dash_runs_out cfg (next :: rest') p1 D1 ltac:(discriminate) D2)
      as (R1 & R2 & R3).
    change (run cfg ((keys, platforms) :: next :: rest') p)
      with (run cfg (next :: rest') p1).
    split; [|split; [assumption|]].
    + intros [|n] Hn; [lia|].
      change (run cfg (firstn (S n) ((keys, platforms) :: next :: rest')) p)
        with (run cfg (firstn n (next :: rest')) p1).
      apply R1. cbn [length] in *. lia.
    + rewrite R3. rewrite Hvx, E3, Hsign. reflexivity.
Qed.

Lemma dash_out_keeps_direction_witness :
  let q := run reference_config ((keys_dash_up_right, []) :: idle 9) (Player.init 100 300) in
  Player.dashing q = false /\ Player.vel_x q = inject_Z 6.
Proof.
  destruct (dash_out_keeps_direction reference_config (Player.init 100 300)
              keys_dash_up_right [] (idle 9))
    as (_ & H1 & H2);
    [ reflexivity | reflexivity | reflexivity | cbn; lia | reflexivity
    | vm_compute; discriminate | reflexivity | ].
  split; [exact H1 | exact H2].
Defined.

(** C2 as stated fails for a dash straight up: its direction is [(0, -1)],
    its horizontal velocity is zero for the ten ticks it lasts, and the tick
    that ends it sets the horizontal velocity to [-PLAYER_SPEED]. *)
Lemma dash_out_vertical_goes_left :
  let inputs := (keys_dash_up, []) :: idle 9 in
  let q := run reference_config inputs (Player.init 100 300) in
  Player.dash_direction keys_dash_up = (0, -1)
  /\ (Player.vel_x (run reference_config (firstn 9 inputs) (Player.init 100 300)) == 0)%Q
  /\ Player.dashing q = false
  /\ Player.vel_x q = (- inject_Z 6)%Q
  /\ ~ dash_out_sign_preserved reference_config keys_dash_up [] (idle 9)
                                (Player.init 100 300).
Proof.
  split; [vm_compute; reflexivity|].
  split; [vm_compute; reflexivity|].
  split; [vm_compute; reflexivity|].
  split; [vm_compute; reflexivity|].
  intros (_ & _ & H). vm_compute in H. discriminate H.
Qed.

(** ** Coyote time *)

Lemma jump_block_velocity (cfg : Config) (keys : Keys) (p : Player.t) :
  Player.vel_y (Player.update_coyote cfg (Player.horizontal_movement cfg keys p))
  = Player.vel_y p.
Proof.
  unfold Player.update_coyote, Player.horizontal_movement.
  destruct (Player.dashing p), (K_LEFT keys), (K_RIGHT keys); cbn;
    destruct (Player.on_ground p); cbn; try reflexivity;
    destruct (0 <? Player.coyote_timer p); reflexivity.
Qed.

Lemma jump_block_timer (cfg : Config) (keys : Keys) (p : Player.t) :
  Player.coyote_timer (Player.update_coyote cfg (Player.horizontal_movement cfg keys p))
  = if Player.on_ground p then COYOTE_TIME cfg
    else if 0 <? Player.coyote_timer p then Player.coyote_timer p - 1
    else Player.coyote_timer p.
Proof.
  unfold Player.update_coyote, Player.horizontal_movement.
  destruct (Player.dashing p), (K_LEFT keys), (K_RIGHT keys); cbn;
    destruct (Player.on_ground p); cbn; try reflexivity;
    destruct (0 <? Player.coyote_timer p); reflexivity.
Qed.

(** What one update does to the coyote timer when the jump key is not held. *)
Lemma coyote_step (cfg : Config) (keys : Keys) (platforms : list Platform.t)
      (p : Player.t) :
  K_z keys = false ->
  Player.coyote_timer (fst (Player.update cfg keys platforms p)) =
    if Player.on_ground p then COYOTE_TIME cfg
    else if 0 <? Player.coyote_timer p then Player.coyote_timer p - 1
    else Player.coyote_timer p.
Proof.
  intro Hz.
  destruct (update_controls cfg keys platforms p) as (_ & _ & _ & _ & _ & Hc).
  rewrite Hc. clear Hc.
  unfold Player.physics, Player.controls, Player.jumping, Player.jump_triggered.
  rewrite Hz. cbn [andb].
  assert (Hphys : forall q,
            Player.coyote_timer
              (Player.set_on_ground false
                 (Player.apply_velocity
                    (Player.apply_gravity cfg (Player.cooldown (Player.handle_dash cfg q)))))
            = Player.coyote_timer q).
  { intro q. unfold Player.apply_gravity, Player.cooldown, Player.handle_dash.
    destruct (Player.dashing q); cbn;
      repeat match goal with
             | |- context [if ?c then _ else _] => destruct c; cbn
             end; reflexivity. }
  rewrite Hphys.
  assert (Hdash : forall q, Player.coyote_timer (Player.dash_mechanic cfg keys q)
                            = Player.coyote_timer q).
  { intro q. unfold Player.dash_mechanic.
    destruct (Player.dash_triggered keys q); [|reflexivity].
    destruct (Player.dash_direction keys) as [dx dy].
    destruct (Py.ltb 0 _); reflexivity. }
  rewrite Hdash. apply jump_block_timer.
Qed.

(** The timer through a stretch of ticks in the air without a jump. *)
Lemma coyote_airborne (cfg : Config) (inputs : list (Keys * list Platform.t)) :
  forall p : Player.t,
  Player.on_ground p = false ->
  no_jump_input inputs ->
  airborne cfg inputs p ->
  Player.on_ground (run cfg inputs p) = false
  /\ Player.coyote_timer (run cfg inputs p) =
       if Player.coyote_timer p <=? 0 then Player.coyote_timer p
       else Z.max 0 (Player.coyote_timer p - Z.of_nat (length inputs)).
Proof.
  induction inputs as [|[keys platforms] rest IH]; intros p Hg Hz Ha.
  - cbn. split; [assumption|]. destruct (Player.coyote_timer p <=? 0) eqn:E; [reflexivity|].
    apply Z.leb_gt in E. lia.
  - inversion Hz as [|i l Hz1 Hz2]; subst. cbn [fst] in Hz1.
    destruct Ha as [Ha1 Ha2]. cbn [run].
    destruct (IH _ Ha1 Hz2 Ha2) as [I1 I2].
    split; [assumption|]. rewrite I2.
    rewrite (coyote_step cfg keys platforms p Hz1), Hg.
    cbn [length]. rewrite Nat2Z.inj_succ.
    destruct (0 <? Player.coyote_timer p) eqn:E1;
      [apply Z.ltb_lt in E1 | apply Z.ltb_ge in E1];
      destruct (Player.coyote_timer p <=? 0) eqn:E2;
      try (apply Z.leb_le in E2); try (apply Z.leb_gt in E2); try lia;
      try reflexivity.
    destruct (Player.coyote_timer p - 1 <=? 0) eqn:E3;
      [apply Z.leb_le in E3 | apply Z.leb_gt in E3]; lia.
Qed.

(** The timer at the start of the tick that follows a grounded tick and any
    number of ticks in the air. *)
Lemma coyote_after_leaving (cfg : Config) (inputs : list (Keys * list Platform.t))
      (p : Player.t) :
  Player.on_ground p = true ->
  inputs <> [] ->
  no_jump_input inputs ->
  airborne cfg inputs p ->
  Player.on_ground (run cfg inputs p) = false
  /\ Player.coyote_timer (run cfg inputs p) =
       if COYOTE_TIME cfg <=? 0 then COYOTE_TIME cfg
       else Z.max 0 (COYOTE_TIME cfg - Z.of_nat (length inputs) + 1).
Proof.
  intros Hg Hne Hz Ha.
  destruct inputs as [|[keys platforms] rest]; [congruence|].
  inversion Hz as [|i l Hz1 Hz2]; subst. cbn [fst] in Hz1.
  destruct Ha as [Ha1 Ha2]. cbn [run].
  destruct (coyote_airborne cfg rest _ Ha1 Hz2 Ha2) as [I1 I2].
  split; [assumption|]. rewrite I2.
  rewrite (coyote_step cfg keys platforms p Hz1), Hg.
  cbn [length]. rewrite Nat2Z.inj_succ.
  destruct (COYOTE_TIME cfg <=? 0); [reflexivity|]. f_equal. lia.
Qed.

(** C8, as amended.  Tick 0 starts with the player on the ground; the player
    is in the air at the end of it and of every later tick, and the jump key
    is not held on ticks [0 .. k-1].  A jump input on tick [k] with
    [vel_y >= 0] succeeds (sets [vel_y] to [JUMP_STRENGTH], zeroes the timer)
    exactly when [k < COYOTE_TIME]: on the grounded tick and on the
    [COYOTE_TIME - 1] ticks after it.  From tick [COYOTE_TIME] on the jumping
    block is skipped and leaves the velocity as it was. *)
Theorem coyote_window (cfg : Config) (p0 : Player.t)
        (inputs : list (Keys * list Platform.t)) (keys : Keys) :
  Player.on_ground p0 = true ->
  no_jump_input inputs ->
  airborne cfg inputs p0 ->
  K_z keys = true ->
  (0 <= Player.vel_y (run cfg inputs p0))%Q ->
  let k := Z.of_nat (length inputs) in
  let p := run cfg inputs p0 in
  jumps cfg keys p = (k <? COYOTE_TIME cfg)
  /\ (k < COYOTE_TIME cfg ->
      Player.vel_y (after_jump_block cfg keys p) = inject_Z (JUMP_STRENGTH cfg)
      /\ Player.coyote_timer (after_jump_block cfg keys p) = 0
      /\ Player.on_ground (after_jump_block cfg keys p) = false)
  /\ (COYOTE_TIME cfg <= k ->
      after_jump_block cfg keys p
        = Player.update_coyote cfg (Player.horizontal_movement cfg keys p)
      /\ Player.vel_y (after_jump_block cfg keys p) = Player.vel_y p).
Proof.
  intros Hg Hz Ha Hkey Hvy k p.
  assert (Hj : jumps cfg keys p = (k <? COYOTE_TIME cfg)).
  { subst k p. unfold jumps, Player.jump_triggered.
    rewrite Hkey, jump_block_velocity, jump_block_timer. cbn [andb].
    apply leb_le in Hvy. rewrite Hvy, andb_true_r.
    destruct inputs as [|i rest].
    - cbn [run length]. rewrite Hg. reflexivity.
    - destruct (coyote_after_leaving cfg (i :: rest) p0 Hg ltac:(discriminate) Hz Ha)
        as [H1 H2].
      rewrite H1, H2.
      set (n := Z.of_nat (length (i :: rest))).
      assert (1 <= n) by (subst n; cbn [length]; lia).
      destruct (COYOTE_TIME cfg <=? 0) eqn:E1;
        [apply Z.leb_le in E1 | apply Z.leb_gt in E1].
      + destruct (0 <? COYOTE_TIME cfg) eqn:E2; [apply Z.ltb_lt in E2; lia|].
        rewrite E2. symmetry. apply Z.ltb_ge. lia.
      + destruct (n <? COYOTE_TIME cfg) eqn:E3;
          [apply Z.ltb_lt in E3 | apply Z.ltb_ge in E3].
        * replace (Z.max 0 (COYOTE_TIME cfg - n + 1)) with (COYOTE_TIME cfg - n + 1) by lia.
          destruct (0 <? COYOTE_TIME cfg - n + 1) eqn:E4;
            [|apply Z.ltb_ge in E4; lia].
          apply Z.ltb_lt. lia.
        * destruct (0 <? Z.max 0 (COYOTE_TIME cfg - n + 1)) eqn:E4.
          -- apply Z.ltb_lt in E4. apply Z.ltb_ge. lia.
          -- rewrite E4. reflexivity. }
  split; [exact Hj|].
  unfold jumps in Hj. unfold after_jump_block, Player.jumping.
  split; intro Hk.
  - assert (E : (k <? COYOTE_TIME cfg) = true) by (apply Z.ltb_lt; exact Hk).
    rewrite Hj, E. cbn. auto.
  - assert (E : (k <? COYOTE_TIME cfg) = false) by (apply Z.ltb_ge; exact Hk).
    rewrite Hj, E. split; [reflexivity | apply jump_block_velocity].
Qed.

Lemma coyote_window_witness :
  let p := run reference_config (idle 5) grounded_player in
  jumps reference_config keys_jump p = true
  /\ Player.vel_y (after_jump_block reference_config keys_jump p) = inject_Z (-15).
Proof.
  destruct (coyote_window reference_config grounded_player (idle 5) keys_jump)
    as (H1 & H2 & _).
  - reflexivity.
  - repeat constructor.
  - vm_compute. tauto.
  - reflexivity.
  - vm_compute. discriminate.
  - split; [exact H1 | apply H2; reflexivity].
Defined.

(** C8 as stated fails on the last tick of the window it names.  The player
    is grounded at the start of tick 0 and in the air from then on; on tick 6,
    the sixth tick after leaving the ground with [COYOTE_TIME = 6], the timer
    has just reached zero and a jump input is ignored although [vel_y >= 0]. *)
Lemma coyote_jump_fails_on_sixth_tick :
  let p := run reference_config (idle 6) grounded_player in
  airborne reference_config (idle 6) grounded_player
  /\ (0 <= Player.vel_y p)%Q
  /\ Player.coyote_timer p = 1
  /\ jumps reference_config keys_jump p = false
  /\ (Player.vel_y (fst (Player.update reference_config keys_jump [] p)) == 49 # 10)%Q
  /\ ~ jump_succeeds_within_window reference_config grounded_player.
Proof.
  split; [vm_compute; tauto|].
  split; [vm_compute; discriminate|].
  split; [vm_compute; reflexivity|].
  split; [vm_compute; reflexivity|].
  split; [vm_compute; reflexivity|].
  intro H. specialize (H 6%nat ltac:(lia) ltac:(cbn; lia)).
  vm_compute in H. discriminate H.
Qed.

(** ** PlatformGenerator *)

(** One call of [generate_platform]: what it appends and how it moves the
    frontier. *)
Lemma generate_platform_spec (R : PyRandom) (cfg : Config)
      (g : PlatformGenerator.t) (r : rng R) :
  exists (spacing new_y width : Z) (ty : PlatformType) (r' : rng R),
    PlatformGenerator.generate_platform R cfg g r =
      (PlatformGenerator.mk (PlatformGenerator.seed g)
         (PlatformGenerator.platforms g
            ++ [Platform.init (PlatformGenerator.last_platform_x g + spacing)
                              new_y width ty])
         (PlatformGenerator.last_platform_x g + spacing) new_y
         (Py.min (inject_Z (PlatformGenerator.last_platform_x g + spacing) / 1000) 5),
       r')
    /\ 80 <= spacing /\ 150 <= new_y /\ 60 <= width.
Proof.
  unfold PlatformGenerator.generate_platform, PlatformGenerator.choose_platform_type,
    bind, ret.
  destruct (random_randint R (-50) _ r) as [a r1].
  destruct (random_randint R _ _ r1) as [b r2].
  destruct (random_randint R (-30) 30 r2) as [c r3].
  destruct (Py.ltb (PlatformGenerator.difficulty g) (5 # 10)).
  - do 5 eexists. split; [reflexivity|]. lia.
  - destruct (random_random R r3) as [v r4].
    do 5 eexists. split; [reflexivity|]. lia.
Qed.

Lemma generate_platform_frontier (R : PyRandom) (cfg : Config)
      (g : PlatformGenerator.t) (r : rng R) :
  let g' := fst (PlatformGenerator.generate_platform R cfg g r) in
  PlatformGenerator.last_platform_x g + 80 <= PlatformGenerator.last_platform_x g'
  /\ PlatformGenerator.difficulty g' =
       Py.min (inject_Z (PlatformGenerator.last_platform_x g') / 1000) 5.
Proof.
  destruct (generate_platform_spec R cfg g r) as (sp & y & w & ty & r' & E & H & _).
  rewrite E. cbn. split; [lia | reflexivity].
Qed.

Lemma clamp_min (x : Z) :
  0 <= x -> (Py.min (inject_Z x / 1000) 5 == clamp (inject_Z x / 1000) 0 5)%Q.
Proof.
  intro Hx. unfold clamp, Py.min.
  assert (H0 : (0 <= inject_Z x / 1000)%Q).
  { unfold Qle. cbn. lia. }
  apply ltb_ge in H0. rewrite H0.
  destruct (Py.ltb 5 (inject_Z x / 1000)); reflexivity.
Qed.

Lemma generate_platform_tracks (R : PyRandom) (cfg : Config)
      (g : PlatformGenerator.t) (r : rng R) :
  0 <= PlatformGenerator.last_platform_x g ->
  difficulty_tracks_frontier (fst (PlatformGenerator.generate_platform R cfg g r)).
Proof.
  intro H.
  destruct (generate_platform_frontier R cfg g r) as [F1 F2].
  split; [lia|]. rewrite F2. apply clamp_min. lia.
Qed.

Lemma generate_platforms_tracks (R : PyRandom) (cfg : Config) (n : nat) :
  forall (g : PlatformGenerator.t) (r : rng R),
  difficulty_tracks_frontier g ->
  difficulty_tracks_frontier (fst (PlatformGenerator.generate_platforms R cfg n g r)).
Proof.
  induction n as [|n IH]; intros g r H; [exact H|].
  cbn [PlatformGenerator.generate_platforms]. unfold bind.
  pose proof (generate_platform_tracks R cfg g r (proj1 H)) as H1.
  destruct (PlatformGenerator.generate_platform R cfg g r) as [g1 r1].
  apply IH. exact H1.
Qed.

Lemma generate_while_tracks (R : PyRandom) (cfg : Config) (bound : Q) (fuel : nat) :
  forall (g : PlatformGenerator.t) (r : rng R),
  difficulty_tracks_frontier g ->
  difficulty_tracks_frontier (fst (PlatformGenerator.generate_while R cfg fuel bound g r)).
Proof.
  induction fuel as [|fuel IH]; intros g r H; [exact H|].
  cbn [PlatformGenerator.generate_while].
  destruct (Py.ltb _ bound); [|exact H]. unfold bind.
  pose proof (generate_platform_tracks R cfg g r (proj1 H)) as H1.
  destruct (PlatformGenerator.generate_platform R cfg g r) as [g1 r1].
  apply IH. exact H1.
Qed.

Lemma init_tracks (R : PyRandom) (cfg : Config) (seed_arg : option Z) (r : rng R) :
  difficulty_tracks_frontier (fst (PlatformGenerator.init R cfg seed_arg r)).
Proof.
  unfold PlatformGenerator.init, bind.
  match goal with
  | |- context [let '(a, _) := ?m in _] => destruct m as [the_seed r1]
  end.
  apply generate_platforms_tracks.
  split; [cbn; lia | reflexivity].
Qed.

Lemma update_tracks (R : PyRandom) (cfg : Config) (player : Player.t)
      (g : PlatformGenerator.t) (r : rng R) :
  difficulty_tracks_frontier g ->
  difficulty_tracks_frontier (fst (PlatformGenerator.update R cfg player g r)).
Proof.
  intro H. unfold PlatformGenerator.update, bind, ret.
  match goal with
  | |- context [PlatformGenerator.generate_while R cfg ?f ?b ?g1 r] =>
      pose proof (generate_while_tracks R cfg b f g1 r H) as H1;
      destruct (PlatformGenerator.generate_while R cfg f b g1 r) as [g2 r2]
  end.
  exact H1.
Qed.

(** C3. In every state a PlatformGenerator can be in (after construction and
    after any sequence of [generate_platform] and [update] calls),
    [difficulty] equals [clamp(last_platform_x / 1000, 0, 5)]: no operation
    leaves it at any other value. *)
Theorem difficulty_is_clamped_frontier (R : PyRandom) (cfg : Config)
        (g : PlatformGenerator.t) :
  reachable R cfg g ->
  (PlatformGenerator.difficulty g ==
     clamp (inject_Z (PlatformGenerator.last_platform_x g) / 1000) 0 5)%Q.
Proof.
  intro H.
  assert (I : difficulty_tracks_frontier g).
  { induction H as [seed_arg r | g r _ IH | g player r _ IH].
    - apply init_tracks.
    - apply generate_platform_tracks. apply IH.
    - apply update_tracks. exact IH. }
  apply I.
Qed.

Lemma difficulty_is_clamped_frontier_witness :
  let g := fst (PlatformGenerator.update Lcg.R reference_config (Player.init 2500 300)
                  (fst (PlatformGenerator.init Lcg.R reference_config (Some 42) 7)) 7) in
  PlatformGenerator.last_platform_x g = 3775
  /\ (PlatformGenerator.difficulty g == 3775 # 1000)%Q
  /\ (PlatformGenerator.difficulty g ==
        clamp (inject_Z (PlatformGenerator.last_platform_x g) / 1000) 0 5)%Q.
Proof.
  split; [vm_compute; reflexivity|].
  split; [vm_compute; reflexivity|].
  apply (difficulty_is_clamped_frontier Lcg.R reference_config).
  apply reachable_update. apply reachable_init.
Defined.

(** ** PlatformGenerator.update: pruning and growing *)

Lemma platform_update_x (p : Platform.t) : Platform.x (Platform.update p) = Platform.x p.
Proof.
  unfold Platform.update, Platform.update_moving, Platform.update_crumbling.
  destruct (PlatformType_eqb (Platform.platform_type p) CRUMBLING && _); cbn;
    repeat match goal with
           | |- context [if ?c then _ else _] => destruct c; cbn
           | |- context [match ?m with Some _ => _ | None => _ end] => destruct m; cbn
           end; reflexivity.
Qed.

(** The loop of [update] only appends, and what it appends lies at least 80
    to the right of the frontier it started from. *)
Lemma generate_while_appends (R : PyRandom) (cfg : Config) (bound : Q) (fuel : nat) :
  forall (g : PlatformGenerator.t) (r : rng R),
  exists generated : list Platform.t,
    PlatformGenerator.platforms (fst (PlatformGenerator.generate_while R cfg fuel bound g r))
      = PlatformGenerator.platforms g ++ generated
    /\ Forall (fun p => PlatformGenerator.last_platform_x g + 80 <= Platform.x p) generated.
Proof.
  induction fuel as [|fuel IH]; intros g r; cbn [PlatformGenerator.generate_while].
  - exists []. rewrite app_nil_r. split; [reflexivity | constructor].
  - destruct (Py.ltb _ bound).
    + unfold bind.
      destruct (generate_platform_spec R cfg g r) as (sp & y & w & ty & r' & E & Hsp & _).
      rewrite E.
      match goal with
      | |- context [PlatformGenerator.generate_while R cfg fuel bound ?g1 r'] =>
          destruct (IH g1 r') as (gen & E1 & F1)
      end.
      cbn [PlatformGenerator.platforms PlatformGenerator.last_platform_x] in E1, F1.
      eexists (_ :: gen). split.
      * rewrite E1, <- app_assoc. reflexivity.
      * constructor; [cbn; lia|].
        eapply Forall_impl; [|exact F1]. cbn. intros p Hp. lia.
    + exists []. rewrite app_nil_r. split; [reflexivity | constructor].
Qed.

(** With the fuel [update] gives it, the loop stops because its condition
    has become false: the model runs the [while] to its end. *)
Lemma generate_while_exits (R : PyRandom) (cfg : Config) (bound : Q) (fuel : nat) :
  forall (g : PlatformGenerator.t) (r : rng R),
  Qceiling bound - PlatformGenerator.last_platform_x g < 80 * Z.of_nat fuel ->
  Py.ltb (inject_Z (PlatformGenerator.last_platform_x
                      (fst (PlatformGenerator.generate_while R cfg fuel bound g r))))
         bound = false.
Proof.
  induction fuel as [|fuel IH]; intros g r Hfuel; cbn [PlatformGenerator.generate_while].
  - cbn [fst ret]. apply ltb_ge.
    apply Qle_trans with (inject_Z (Qceiling bound)); [apply Qle_ceiling|].
    rewrite <- Zle_Qle. lia.
  - destruct (Py.ltb (inject_Z (PlatformGenerator.last_platform_x g)) bound) eqn:E;
      [|exact E].
    unfold bind.
    pose proof (generate_platform_frontier R cfg g r) as [F _].
    destruct (PlatformGenerator.generate_platform R cfg g r) as [g1 r1]. cbn [fst] in F.
    apply IH. lia.
Qed.

Lemma iterations_suffice (bound : Q) (g : PlatformGenerator.t) :
  Qceiling bound - PlatformGenerator.last_platform_x g
  < 80 * Z.of_nat (PlatformGenerator.iterations bound g).
Proof.
  unfold PlatformGenerator.iterations.
  set (d := Qceiling bound - PlatformGenerator.last_platform_x g).
  pose proof (Z.mul_succ_div_gt d 80 ltac:(lia)) as H.
  destruct (Z_lt_le_dec d 0) as [Hneg | Hpos]; [lia|].
  assert (0 <= d / 80) by (apply Z.div_pos; lia).
  rewrite Z2Nat.id by lia. lia.
Qed.

(** The test of the list comprehension is at least as strict as the bound
    with the exact third of the screen width. *)
Lemma kept_beyond_prune_line (cfg : Config) (player : Player.t) (p : Platform.t) :
  (camera_x_of cfg player - 500 < inject_Z (Platform.x p))%Q ->
  beyond_prune_line cfg player p.
Proof.
  unfold beyond_prune_line, camera_x_of, Py.floordiv. intro H.
  eapply Qle_lt_trans; [|exact H].
  assert (Hthird : (inject_Z (SCREEN_WIDTH cfg / 3) <= inject_Z (SCREEN_WIDTH cfg) / 3)%Q).
  { unfold Qle. cbn. pose proof (Z.mul_div_le (SCREEN_WIDTH cfg) 3 ltac:(lia)). lia. }
  lra.
Qed.

Lemma beyond_prune_line_update (cfg : Config) (player : Player.t) (p : Platform.t) :
  beyond_prune_line cfg player p -> beyond_prune_line cfg player (Platform.update p).
Proof. unfold beyond_prune_line. rewrite platform_update_x. auto. Qed.

(** The live list after [update]: the survivors of the pruning test, then the
    platforms generated during the call, each updated once. *)
Lemma update_live_list (R : PyRandom) (cfg : Config) (player : Player.t)
        (g : PlatformGenerator.t) (r : rng R) :
  let g' := fst (PlatformGenerator.update R cfg player g r) in
  let kept := filter (kept_by_update cfg player) (PlatformGenerator.platforms g) in
  exists generated : list Platform.t,
    PlatformGenerator.platforms g' = map Platform.update (kept ++ generated)
    /\ Forall (beyond_prune_line cfg player) (map Platform.update kept)
    /\ Forall (fun p => PlatformGenerator.last_platform_x g + 80 <= Platform.x p) generated
    /\ ((camera_x_of cfg player - 500
           < inject_Z (PlatformGenerator.last_platform_x g + 80))%Q ->
        Forall (beyond_prune_line cfg player) (PlatformGenerator.platforms g'))
    /\ (camera_x_of cfg player + inject_Z (SCREEN_WIDTH cfg) + 500
          <= inject_Z (PlatformGenerator.last_platform_x g'))%Q.
Proof.
  intros g' kept. subst g'.
  unfold PlatformGenerator.update, bind, ret.
  fold (camera_x_of cfg player). fold (kept_by_update cfg player). fold kept.
  set (g1 := PlatformGenerator.mk _ kept _ _ _).
  set (bound := (camera_x_of cfg player + inject_Z (SCREEN_WIDTH cfg) + 500)%Q).
  destruct (generate_while_appends R cfg bound (PlatformGenerator.iterations bound g1) g1 r)
    as (generated & E & F).
  pose proof (generate_while_exits R cfg bound (PlatformGenerator.iterations bound g1) g1 r
                (iterations_suffice bound g1)) as X.
  destruct (PlatformGenerator.generate_while R cfg _ bound g1 r) as [g2 r2].
  cbn [fst PlatformGenerator.platforms PlatformGenerator.last_platform_x] in *.
  assert (K : Forall (beyond_prune_line cfg player) (map Platform.update kept)).
  { apply Forall_forall. intros p Hin. apply in_map_iff in Hin.
    destruct Hin as (p0 & <- & Hin). apply beyond_prune_line_update.
    apply filter_In in Hin. destruct Hin as [_ Hk].
    apply kept_beyond_prune_line. apply ltb_lt. exact Hk. }
  exists generated. split; [rewrite E; reflexivity|].
  split; [exact K|]. split; [exact F|]. split.
  - intro Hfront. rewrite E, map_app. apply Forall_app. split; [exact K|].
    apply Forall_forall. intros p Hin. apply in_map_iff in Hin.
    destruct Hin as (p0 & <- & Hin). apply beyond_prune_line_update.
    apply kept_beyond_prune_line.
    rewrite Forall_forall in F. specialize (F p0 Hin).
    eapply Qlt_le_trans; [exact Hfront|]. rewrite <- Zle_Qle. exact F.
  - apply ltb_ge. exact X.
Qed.

(** ** Seeding *)

(** A non-zero seed makes the constructor independent of the state the
    random stream was in. *)
Lemma init_nonzero_seed (R : PyRandom) (cfg : Config) (s : Z) (r : rng R) :
  s <> 0 ->
  PlatformGenerator.init R cfg (Some s) r =
    PlatformGenerator.generate_platforms R cfg 15
      (PlatformGenerator.generate_starting_platform (PlatformGenerator.mk s [] 0 400 0))
      (random_seed R s).
Proof.
  intro Hs. unfold PlatformGenerator.init, bind, ret.
  destruct (s =? 0) eqn:E; [apply Z.eqb_eq in E; contradiction | reflexivity].
Qed.

(** A seed of 0, like no seed, makes the constructor draw the seed. *)
Lemma init_zero_seed (R : PyRandom) (cfg : Config) (r : rng R) :
  PlatformGenerator.init R cfg (Some 0) r =
    PlatformGenerator.generate_platforms R cfg 15
      (PlatformGenerator.generate_starting_platform
         (PlatformGenerator.mk (fst (random_randint R 0 1000000 r)) [] 0 400 0))
      (random_seed R (fst (random_randint R 0 1000000 r))).
Proof.
  unfold PlatformGenerator.init, bind, ret. cbn [Z.eqb].
  destruct (random_randint R 0 1000000 r) as [a r1]. reflexivity.
Qed.

Lemma generate_platforms_seed (R : PyRandom) (cfg : Config) (n : nat) :
  forall (g : PlatformGenerator.t) (r : rng R),
  PlatformGenerator.seed (fst (PlatformGenerator.generate_platforms R cfg n g r))
  = PlatformGenerator.seed g.
Proof.
  induction n as [|n IH]; intros g r; [reflexivity|].
  cbn [PlatformGenerator.generate_platforms]. unfold bind.
  destruct (generate_platform_spec R cfg g r) as (sp & y & w & ty & r' & E & _).
  rewrite E, IH. reflexivity.
Qed.

(** C4, as amended.  Two generators constructed with the same non-zero seed,
    each followed by [n] calls of [generate_platform] with no other draw from
    the random stream in between, hold the same platforms (same x, y, width
    and type, in the same order) whatever state the stream was in when each
    was constructed; the two runs agree on the whole generator and leave the
    stream in the same state. *)
Theorem same_seed_same_sequence (R : PyRandom) (cfg : Config) (s : Z) (n : nat)
        (r1 r2 : rng R) :
  s <> 0 ->
  generator_run R cfg (Some s) n r1 = generator_run R cfg (Some s) n r2
  /\ map shape (PlatformGenerator.platforms (fst (generator_run R cfg (Some s) n r1)))
     = map shape (PlatformGenerator.platforms (fst (generator_run R cfg (Some s) n r2))).
Proof.
  intro Hs.
  assert (E : generator_run R cfg (Some s) n r1 = generator_run R cfg (Some s) n r2).
  { unfold generator_run, bind. rewrite !init_nonzero_seed by assumption. reflexivity. }
  rewrite E. auto.
Qed.

Lemma same_seed_same_sequence_witness :
  map shape (PlatformGenerator.platforms
               (fst (generator_run Lcg.R reference_config (Some 42) 3 7)))
  = map shape (PlatformGenerator.platforms
                 (fst (generator_run Lcg.R reference_config (Some 42) 3 2024))).
Proof.
  apply (same_seed_same_sequence Lcg.R reference_config 42 3 7 2024). discriminate.
Defined.

(** C4 as stated fails for seed 0: the second of two generators constructed
    with seed 0 draws another seed from the stream and holds other
    platforms. *)
Lemma seed_zero_not_reproducible :
  let first := generator_run Lcg.R reference_config (Some 0) 3 7 in
  let second := generator_run Lcg.R reference_config (Some 0) 3 (snd first) in
  PlatformGenerator.seed (fst first) = 19564
  /\ PlatformGenerator.seed (fst second) = 6065
  /\ map shape (PlatformGenerator.platforms (fst first))
     <> map shape (PlatformGenerator.platforms (fst second)).
Proof.
  split; [vm_compute; reflexivity|].
  split; [vm_compute; reflexivity|].
  intro H. vm_compute in H. discriminate H.
Qed.

(** The stream is shared: when the calls of two generators constructed with
    the same non-zero seed are interleaved, the platforms they append differ. *)
Lemma interleaved_generators_diverge :
  let a := PlatformGenerator.init Lcg.R reference_config (Some 42) 7 in
  let b := PlatformGenerator.init Lcg.R reference_config (Some 42) (snd a) in
  let a1 := PlatformGenerator.generate_platform Lcg.R reference_config (fst a) (snd b) in
  let b1 := PlatformGenerator.generate_platform Lcg.R reference_config (fst b) (snd a1) in
  fst a = fst b
  /\ map shape (PlatformGenerator.platforms (fst a1))
     <> map shape (PlatformGenerator.platforms (fst b1)).
Proof.
  split; [vm_compute; reflexivity|].
  intro H. vm_compute in H. discriminate H.
Qed.

(** C10.  Constructed with seed 0, the generator does what it does with no
    seed at all: it draws a seed from the random stream and seeds the stream
    with that.  So the platforms of a generator constructed with seed 0
    depend on the state the stream was in, where those of a generator
    constructed with a non-zero seed do not. *)
Theorem seed_zero_is_absent :
  (forall (R : PyRandom) (cfg : Config) (r : rng R),
      PlatformGenerator.init R cfg (Some 0) r = PlatformGenerator.init R cfg None r
      /\ PlatformGenerator.seed (fst (PlatformGenerator.init R cfg (Some 0) r))
         = fst (random_randint R 0 1000000 r))
  /\ (exists (R : PyRandom) (r1 r2 : rng R),
        map shape (PlatformGenerator.platforms
                     (fst (PlatformGenerator.init R reference_config (Some 0) r1)))
        <> map shape (PlatformGenerator.platforms
                        (fst (PlatformGenerator.init R reference_config (Some 0) r2))))
  /\ (forall (R : PyRandom) (cfg : Config) (s : Z) (r1 r2 : rng R),
        s <> 0 ->
        PlatformGenerator.init R cfg (Some s) r1 = PlatformGenerator.init R cfg (Some s) r2).
Proof.
  split; [|split].
  - intros R cfg r. split; [reflexivity|].
    rewrite init_zero_seed, generate_platforms_seed. reflexivity.
  - exists Lcg.R, 7, 8. intro H. vm_compute in H. discriminate H.
  - intros R cfg s r1 r2 Hs. rewrite !init_nonzero_seed by assumption. reflexivity.
Qed.

(** ** The session *)

Lemma update_game_over (R : PyRandom) (cfg : Config) (keys : Keys) (g : Game.t R) :
  Game.game_over g = true -> Game.update R cfg keys g = g.
Proof. intro H. unfold Game.update. rewrite H. reflexivity. Qed.

Lemma update_running (R : PyRandom) (cfg : Config) (keys : Keys) (g : Game.t R) :
  Game.game_over g = false ->
  Game.game_over (Game.update R cfg keys g)
  = fell_below_camera cfg (Game.update R cfg keys g).
Proof.
  intro H. unfold Game.update, fell_below_camera. rewrite H.
  destruct (PlatformGenerator.update R cfg _ _ _) as [gen1 r1].
  destruct (Player.update_shared cfg keys _ _) as [player1 platforms1].
  cbn. destruct (Py.ltb _ _); reflexivity.
Qed.

Lemma reset_game_body_fresh (R : PyRandom) (cfg : Config) (running0 : bool) (r : rng R) :
  exists g : Game.t R,
    Game.reset_game_body R cfg running0 r = Py.Ok g
    /\ fresh_session g
    /\ Game.generator g =
         fst (PlatformGenerator.init R cfg
                (Some (fst (random_randint R 0 1000000 r)))
                (snd (random_randint R 0 1000000 r))).
Proof.
  unfold Game.reset_game_body.
  destruct (random_randint R 0 1000000 r) as [seed r1]. cbn [fst snd].
  destruct (PlatformGenerator.init R cfg (Some seed) r1) as [gen r2].
  eexists. split; [reflexivity|]. split; [|reflexivity].
  unfold fresh_session. cbn. auto.
Qed.

Lemma reset_game_fresh (R : PyRandom) (cfg : Config) (g0 : Game.t R) :
  exists g : Game.t R,
    Game.reset_game R cfg g0 = Py.Ok g
    /\ fresh_session g
    /\ Game.generator g =
         fst (PlatformGenerator.init R cfg
                (Some (fst (random_randint R 0 1000000 (Game.random_state g0))))
                (snd (random_randint R 0 1000000 (Game.random_state g0)))).
Proof. apply reset_game_body_fresh. Qed.

(** C9, as amended.  While [game_over] is false, an update sets it exactly
    when, at the end of that update, [player.y] exceeds
    [camera.get_y() + SCREEN_HEIGHT + 100], where [get_y] is the camera
    position truncated to an integer.  Once [game_over] is true every update
    returns the session as it was (player, generator, camera, score, flag
    and random stream unchanged), so the flag goes from false to true at most
    once until [reset_game], which clears it and installs a new player,
    generator, camera and score. *)
Theorem game_over_is_absorbing (R : PyRandom) (cfg : Config) (g : Game.t R) :
  (forall keys : Keys,
      Game.game_over (Game.update R cfg keys g)
      = Game.game_over g || fell_below_camera cfg (Game.update R cfg keys g))
  /\ (Game.game_over g = true ->
      forall inputs : list Keys, updates cfg inputs g = g)
  /\ (Game.game_over g = true ->
      Game.handle_event R cfg Game.KEYDOWN_r g = Game.reset_game R cfg g)
  /\ (exists g' : Game.t R,
        Game.reset_game R cfg g = Py.Ok g'
        /\ fresh_session g'
        /\ Game.generator g' =
             fst (PlatformGenerator.init R cfg
                    (Some (fst (random_randint R 0 1000000 (Game.random_state g))))
                    (snd (random_randint R 0 1000000 (Game.random_state g))))).
Proof.
  split; [|split; [|split]].
  - intro keys. destruct (Game.game_over g) eqn:E.
    + rewrite update_game_over by exact E. rewrite E. reflexivity.
    + rewrite update_running by exact E. reflexivity.
  - intros E inputs. induction inputs as [|keys rest IH]; [reflexivity|].
    cbn [updates]. rewrite update_game_over by exact E. exact IH.
  - intro E. cbn. rewrite E. reflexivity.
  - apply reset_game_fresh.
Qed.

(** C9 as stated names [camera.y] where the program reads [camera.get_y()].
    In [falling_session] one update takes the player to y = 1000.8 and the
    camera to y = 300.93: the flag is set, since 1000.8 > 300 + 700, although
    [player.y] does not exceed [camera.y + 700 = 1000.93]. *)
Lemma game_over_before_camera_line :
  let g := Game.update Lcg.R reference_config no_keys falling_session in
  Game.game_over falling_session = false
  /\ fell_below_camera reference_config falling_session = false
  /\ (Player.y (Game.player g) == 10008 # 10)%Q
  /\ (Camera.y (Game.camera g) == 30093 # 100)%Q
  /\ Game.game_over g = true
  /\ ~ exceeds_camera_line reference_config g.
Proof.
  split; [reflexivity|].
  split; [vm_compute; reflexivity|].
  split; [vm_compute; reflexivity|].
  split; [vm_compute; reflexivity|].
  split; [vm_compute; reflexivity|].
  intro H. vm_compute in H. discriminate H.
Qed.

(** What [Game()] returns is what [reset_game] made, when the display
    opened. *)
Lemma init_ok_reset (R : PyRandom) (cfg : Config) (r : rng R) (g : Game.t R) :
  Game.init R cfg r = Py.Ok g -> Game.reset_game_body R cfg true r = Py.Ok g.
Proof.
  unfold Game.init.
  destruct (Pygame.display_set_mode (SCREEN_WIDTH cfg, SCREEN_HEIGHT cfg));
    [auto | discriminate].
Qed.








(** ** Pruning during play *)

Lemma horizontal_speed (keys : Keys) (p : Player.t) :
  speed_bounded p ->
  speed_bounded (Player.horizontal_movement reference_config keys p)
  /\ Player.x (Player.horizontal_movement reference_config keys p) = Player.x p.
Proof.
  unfold speed_bounded, Player.horizontal_movement. intros [H1 H2].
  destruct (Player.dashing p), (K_LEFT keys), (K_RIGHT keys); cbn;
    (split; [split; try assumption; apply Qle_bool_iff; reflexivity | reflexivity]).
Qed.

Lemma jump_block_keeps (cfg : Config) (keys : Keys) (p : Player.t) :
  let q := Player.jumping cfg keys (Player.update_coyote cfg p) in
  Player.vel_x q = Player.vel_x p /\ Player.x q = Player.x p.
Proof.
  unfold Player.jumping, Player.update_coyote.
  destruct (Player.on_ground p); [| destruct (0 <? Player.coyote_timer p)];
    match goal with
    | |- context [if Player.jump_triggered ?k ?a then _ else _] =>
        destruct (Player.jump_triggered k a)
    end; cbn; auto.
Qed.

Lemma dash_mechanic_speed (keys : Keys) (p : Player.t) :
  speed_bounded p ->
  speed_bounded (Player.dash_mechanic reference_config keys p)
  /\ Player.x (Player.dash_mechanic reference_config keys p) = Player.x p.
Proof.
  unfold speed_bounded, Player.dash_mechanic. intros [H1 H2].
  destruct (Player.dash_triggered keys p); [|auto].
  destruct keys as [l r u d z x].
  unfold Player.dash_direction. cbn [K_LEFT K_RIGHT K_UP K_DOWN].
  destruct l, r, u, d; cbn;
    (split; [split; apply Qle_bool_iff; vm_compute; reflexivity | reflexivity]).
Qed.

Lemma physics_speed (p : Player.t) :
  speed_bounded p ->
  speed_bounded (Player.physics reference_config p)
  /\ Player.x (Player.physics reference_config p)
     = (Player.x p + Player.vel_x (Player.physics reference_config p))%Q.
Proof.
  unfold speed_bounded, Player.physics, Player.handle_dash, Player.cooldown,
    Player.apply_gravity.
  intros [H1 H2].
  destruct (Player.dashing p) eqn:D; cbn.
  - destruct (Player.dash_timer p - 1 <=? 0); cbn;
      [destruct (Py.ltb 0 (Player.vel_x p)); cbn |];
      destruct (0 <? Player.dash_cooldown p); cbn; rewrite ?D; cbn;
      (split; [split; try assumption; apply Qle_bool_iff; reflexivity | reflexivity]).
  - destruct (0 <? Player.dash_cooldown p); cbn; rewrite ?D; cbn; auto.
Qed.

(** One update moves the player by its new horizontal velocity, at most 20. *)
Lemma update_shared_step (keys : Keys) (store : list Platform.t) (p : Player.t) :
  speed_bounded p ->
  let q := fst (Player.update_shared reference_config keys store p) in
  speed_bounded q /\ Player.x q = (Player.x p + Player.vel_x q)%Q.
Proof.
  intros Hb q. subst q. unfold Player.update_shared.
  destruct (collisions_shared_filter reference_config store
              (Player.move reference_config keys p)) as (E & _). rewrite E.
  destruct (collisions_controls reference_config (filter Platform.active store)
              (Player.move reference_config keys p)) as (Cx & Cv & _).
  unfold speed_bounded. rewrite Cx, Cv. unfold Player.move, Player.controls.
  destruct (horizontal_speed keys p Hb) as [B1 X1].
  destruct (jump_block_keeps reference_config keys
              (Player.horizontal_movement reference_config keys p)) as [V2 X2].
  set (p2 := Player.jumping reference_config keys _) in *.
  assert (B2 : speed_bounded p2) by (unfold speed_bounded in *; rewrite V2; exact B1).
  destruct (dash_mechanic_speed keys p2 B2) as [B3 X3].
  destruct (physics_speed _ B3) as [B4 X4].
  split; [exact B4|]. rewrite X4, X3, X2, X1. reflexivity.
Qed.

(** What every session keeps true. *)
Lemma playing_invariant (R : PyRandom) (g : Game.t R) :
  playing R reference_config g ->
  speed_bounded (Game.player g)
  /\ frontier_in_reach reference_config (Game.player g) (Game.generator g).
Proof.
  assert (Hreset : forall (running0 : bool) (r : rng R) (g1 : Game.t R),
             Game.reset_game_body R reference_config running0 r = Py.Ok g1 ->
             speed_bounded (Game.player g1)
             /\ frontier_in_reach reference_config (Game.player g1) (Game.generator g1)).
  { intros running0 r g1 E.
    destruct (reset_game_body_fresh R reference_config running0 r)
      as (g2 & E2 & (Fp & _) & Fg).
    rewrite E2 in E. injection E as <-. rewrite Fp, Fg.
    split; [split; apply Qle_bool_iff; reflexivity|].
    pose proof (init_tracks R reference_config
                  (Some (fst (random_randint R 0 1000000 r)))
                  (snd (random_randint R 0 1000000 r))) as [H0 _].
    unfold frontier_in_reach, camera_x_of, Py.floordiv. cbn.
    apply Qlt_le_trans with (inject_Z 80); [reflexivity|].
    rewrite <- Zle_Qle. lia. }
  induction 1 as [r g E | e g g' _ IH E | keys g _ IH].
  - eapply Hreset. apply init_ok_reset. exact E.
  - destruct e; cbn in E.
    + injection E as <-. exact IH.
    + injection E as <-. exact IH.
    + destruct (Game.game_over g); [eapply Hreset; exact E | injection E as <-; exact IH].
    + injection E as <-. exact IH.
  - unfold Game.update. destruct (Game.game_over g); [exact IH|].
    destruct IH as [Hb _].
    destruct (update_live_list R reference_config (Game.player g)
                (Game.generator g) (Game.random_state g)) as (_ & _ & _ & _ & _ & X).
    destruct (PlatformGenerator.update R reference_config _ _ _) as [gen1 r1].
    cbn [fst] in X.
    pose proof (update_shared_step keys (PlatformGenerator.platforms gen1)
                  (Game.player g) Hb) as [Hb1 Hx1].
    destruct (Player.update_shared reference_config keys _ _) as [player1 platforms1].
    cbn [fst] in Hb1, Hx1. cbn.
    split; [exact Hb1|].
    unfold frontier_in_reach, camera_x_of, Py.floordiv in *. cbn in *.
    rewrite Hx1. destruct Hb1 as [L U].
    rewrite inject_Z_plus.
    change (inject_Z 333) with 333%Q in *. change (inject_Z 1000) with 1000%Q in *.
    change (inject_Z 80) with 80%Q. lra.
Qed.

(** During play the frontier is always in reach, so after the [update] of any
    tick every platform of the live list is beyond the pruning line. *)
Lemma pruning_during_play (R : PyRandom) (g : Game.t R) :
  playing R reference_config g ->
  Forall (beyond_prune_line reference_config (Game.player g))
         (PlatformGenerator.platforms
            (fst (PlatformGenerator.update R reference_config (Game.player g)
                    (Game.generator g) (Game.random_state g)))).
Proof.
  intro H. destruct (playing_invariant R g H) as [_ F].
  destruct (update_live_list R reference_config (Game.player g)
              (Game.generator g) (Game.random_state g)) as (generated & _ & _ & _ & P & _).
  apply P. exact F.
Qed.

(** C5, as amended.  After [update(player)] the live list is the platforms
    that passed the pruning test followed by the platforms generated during
    the call, each updated once.  Every platform of the first kind has
    [x > (player.x - SCREEN_WIDTH // 3) - 500], hence
    [x > (player.x - screen_width / 3) - 500].  The generated ones lie at
    least 80 to the right of [last_platform_x] as it was on entry, so the
    whole list satisfies the bound whenever
    [last_platform_x + 80 > (player.x - SCREEN_WIDTH // 3) - 500] on entry;
    the generation loop ends with the frontier at or beyond
    [camera_x + SCREEN_WIDTH + 500].  In a session the condition on entry
    holds on every tick, so there the whole list is beyond the line after
    every [update]. *)
Theorem update_prunes_behind_camera :
  (forall (R : PyRandom) (cfg : Config) (player : Player.t)
          (g : PlatformGenerator.t) (r : rng R),
      let g' := fst (PlatformGenerator.update R cfg player g r) in
      let kept := filter (kept_by_update cfg player) (PlatformGenerator.platforms g) in
      exists generated : list Platform.t,
        PlatformGenerator.platforms g' = map Platform.update (kept ++ generated)
        /\ Forall (beyond_prune_line cfg player) (map Platform.update kept)
        /\ Forall (fun p => PlatformGenerator.last_platform_x g + 80 <= Platform.x p)
                  generated
        /\ (frontier_in_reach cfg player g ->
            Forall (beyond_prune_line cfg player) (PlatformGenerator.platforms g'))
        /\ (camera_x_of cfg player + inject_Z (SCREEN_WIDTH cfg) + 500
              <= inject_Z (PlatformGenerator.last_platform_x g'))%Q)
  /\ (forall (R : PyRandom) (g : Game.t R),
        playing R reference_config g ->
        Forall (beyond_prune_line reference_config (Game.player g))
               (PlatformGenerator.platforms
                  (fst (PlatformGenerator.update R reference_config (Game.player g)
                          (Game.generator g) (Game.random_state g))))).
Proof.
  split.
  - intros R cfg player g r. apply update_live_list.
  - apply pruning_during_play.
Qed.

Lemma update_prunes_behind_camera_witness :
  let player := Player.init 2500 300 in
  let g := fst (PlatformGenerator.init Lcg.R reference_config (Some 42) 7) in
  Forall (beyond_prune_line reference_config player)
         (PlatformGenerator.platforms
            (fst (PlatformGenerator.update Lcg.R reference_config player g 7))).
Proof.
  destruct update_prunes_behind_camera as [H _].
  destruct (H Lcg.R reference_config (Player.init 2500 300)
              (fst (PlatformGenerator.init Lcg.R reference_config (Some 42) 7)) 7)
    as (generated & _ & _ & _ & P & _).
  apply P. vm_compute. reflexivity.
Defined.

(** C5 as stated fails when the frontier lies far behind the player: every
    old platform is dropped, and the loop then generates from the old
    frontier, so the first platform it appends is behind the pruning line. *)
Lemma update_keeps_platform_behind_camera :
  let player := Player.init 10000 300 in
  let g := fst (PlatformGenerator.init Lcg.R reference_config (Some 42) 7) in
  let g' := fst (PlatformGenerator.update Lcg.R reference_config player g 7) in
  PlatformGenerator.last_platform_x g = 3007
  /\ map Platform.x (firstn 3 (PlatformGenerator.platforms g')) = [3189; 3480; 3775]
  /\ ~ Forall (beyond_prune_line reference_config player) (PlatformGenerator.platforms g').
Proof.
  split; [vm_compute; reflexivity|].
  split; [vm_compute; reflexivity|].
  intro H. rewrite Forall_forall in H.
  specialize (H (Platform.init 3189 166 70 CRUMBLING)).
  assert (Hin : In (Platform.init 3189 166 70 CRUMBLING)
                   (PlatformGenerator.platforms
                      (fst (PlatformGenerator.update Lcg.R reference_config
                              (Player.init 10000 300)
                              (fst (PlatformGenerator.init Lcg.R reference_config (Some 42) 7))
                              7)))).
  { vm_compute. left. reflexivity. }
  specialize (H Hin). clear Hin. vm_compute in H. discriminate H.
Qed.

(** * Further properties of the program *)

(** ** Platform: what [update] and [start_crumble] keep *)

Lemma platform_update_frame (p : Platform.t) :
  Platform.x (Platform.update p) = Platform.x p
  /\ Platform.width (Platform.update p) = Platform.width p
  /\ Platform.height (Platform.update p) = Platform.height p
  /\ Platform.platform_type (Platform.update p) = Platform.platform_type p.
Proof.
  unfold Platform.update, Platform.update_moving, Platform.update_crumbling.
  destruct (PlatformType_eqb (Platform.platform_type p) CRUMBLING && _); cbn;
    repeat match goal with
           | |- context [if ?c then _ else _] => destruct c; cbn
           | |- context [match ?m with Some _ => _ | None => _ end] => destruct m; cbn
           end; auto.
Qed.

Lemma platform_updates_frame (n : nat) :
  forall p : Platform.t,
  Platform.x (platform_updates n p) = Platform.x p
  /\ Platform.width (platform_updates n p) = Platform.width p
  /\ Platform.height (platform_updates n p) = Platform.height p
  /\ Platform.platform_type (platform_updates n p) = Platform.platform_type p.
Proof.
  induction n as [|n IH]; intro p; cbn [platform_updates]; [auto|].
  destruct (IH (Platform.update p)) as (A & B & C & D).
  destruct (platform_update_frame p) as (A' & B' & C' & D').
  repeat split; congruence.
Qed.

(** One update of a swinging MOVING platform leaves it swinging, and changes
    neither its activity nor its crumble timer. *)
Lemma update_swinging (p : Platform.t) :
  Platform.platform_type p = MOVING ->
  swinging p ->
  swinging (Platform.update p)
  /\ Platform.active (Platform.update p) = Platform.active p
  /\ Platform.crumble_timer (Platform.update p) = Platform.crumble_timer p
  /\ (forall m, Platform.moving p = Some m ->
       exists m', Platform.moving (Platform.update p) = Some m'
                  /\ Platform.original_y m' = Platform.original_y m).
Proof.
  intros Hty (m & Hm & Hr & Hs & Hd).
  unfold Platform.update, Platform.update_crumbling, Platform.update_moving.
  rewrite Hty. cbn [PlatformType_eqb andb]. rewrite Hty, Hm. cbn [PlatformType_eqb].
  cbn [Platform.y Platform.set_y]. rewrite Hr, Hs.
  destruct (Z.abs (Platform.y p + 2 * Platform.move_direction m - Platform.original_y m)
            >? 100) eqn:E;
    [apply Z.gtb_lt in E | rewrite Z.gtb_ltb in E; apply Z.ltb_ge in E].
  - split; [|split; [reflexivity | split; [reflexivity|]]].
    + eexists. split; [reflexivity|]. cbn. repeat split; try assumption.
      destruct Hd as [[D B] | [D B]]; rewrite D in *; [right | left]; lia.
    + intros m0 E0. assert (m0 = m) by congruence. subst m0.
      eexists. split; [reflexivity | reflexivity].
  - split; [|split; [reflexivity | split; [reflexivity|]]].
    + exists m. cbn. repeat split; try assumption.
      destruct Hd as [[D B] | [D B]]; rewrite D in *; [left | right]; lia.
    + intros m0 E0. exists m0. split; [cbn; rewrite Hm; exact E0 | reflexivity].
Qed.

Lemma init_swinging (x0 y0 w : Z) : swinging (Platform.init x0 y0 w MOVING).
Proof.
  eexists. split; [reflexivity|]. cbn. repeat split. left. split; [reflexivity | lia].
Qed.

Lemma updates_swinging (n : nat) :
  forall (p : Platform.t) (m : Platform.motion),
  Platform.platform_type p = MOVING ->
  swinging p ->
  Platform.moving p = Some m ->
  swinging (platform_updates n p)
  /\ Platform.active (platform_updates n p) = Platform.active p
  /\ exists m', Platform.moving (platform_updates n p) = Some m'
                 /\ Platform.original_y m' = Platform.original_y m.
Proof.
  induction n as [|n IH]; intros p m Hty Hs Hm; cbn [platform_updates].
  - split; [assumption | split; [reflexivity | exists m; auto]].
  - destruct (update_swinging p Hty Hs) as (S1 & A1 & _ & M1).
    destruct (M1 m Hm) as (m1 & Hm1 & O1).
    destruct (platform_update_frame p) as (_ & _ & _ & T1).
    destruct (IH (Platform.update p) m1 ltac:(congruence) S1 Hm1) as (S2 & A2 & m2 & Hm2 & O2).
    split; [assumption | split; [congruence | exists m2; split; [assumption | congruence]]].
Qed.

(** On its way down from the start a MOVING platform is at [y0 + 2 n] after
    [n <= 51] updates: it passes the range of 100 by one step before it
    turns. *)
Lemma moving_first_leg (n : nat) :
  forall (x0 y0 w : Z),
  (n <= 51)%nat ->
  let p := platform_updates n (Platform.init x0 y0 w MOVING) in
  Platform.y p = y0 + 2 * Z.of_nat n
  /\ Platform.moving p
     = Some (Platform.mk_motion y0 100 2 (if (n <=? 50)%nat then 1 else -1)).
Proof.
  intros x0 y0 w.
  assert (G : forall k (p : Platform.t),
             (k <= 50)%nat ->
             Platform.platform_type p = MOVING ->
             Platform.y p = y0 + 2 * Z.of_nat k ->
             Platform.moving p = Some (Platform.mk_motion y0 100 2 1) ->
             let q := Platform.update p in
             Platform.platform_type q = MOVING
             /\ Platform.y q = y0 + 2 * Z.of_nat (S k)
             /\ Platform.moving q
                = Some (Platform.mk_motion y0 100 2 (if (S k <=? 50)%nat then 1 else -1))).
  { intros k p Hk Hty Hy Hm.
    unfold Platform.update, Platform.update_crumbling, Platform.update_moving.
    rewrite Hty. cbn [PlatformType_eqb andb]. rewrite Hty, Hm. cbn [PlatformType_eqb].
    cbn [Platform.y Platform.set_y Platform.move_speed Platform.move_direction
         Platform.original_y Platform.move_range].
    rewrite Hy.
    destruct (Z.abs (y0 + 2 * Z.of_nat k + 2 * 1 - y0) >? 100) eqn:E;
      [apply Z.gtb_lt in E | rewrite Z.gtb_ltb in E; apply Z.ltb_ge in E];
      destruct (S k <=? 50)%nat eqn:E2;
      [apply Nat.leb_le in E2 | apply Nat.leb_gt in E2
       | apply Nat.leb_le in E2 | apply Nat.leb_gt in E2];
      try lia;
      (split; [exact Hty|];
       cbn [Platform.y Platform.moving Platform.set_y Platform.set_moving];
       split; [lia | first [exact Hm | reflexivity]]). }
  assert (H : forall k j (p : Platform.t),
             (k + j <= 51)%nat -> (k <= 50 \/ j = 0)%nat ->
             Platform.platform_type p = MOVING ->
             Platform.y p = y0 + 2 * Z.of_nat k ->
             Platform.moving p
               = Some (Platform.mk_motion y0 100 2 (if (k <=? 50)%nat then 1 else -1)) ->
             Platform.y (platform_updates j p) = y0 + 2 * Z.of_nat (k + j)
             /\ Platform.moving (platform_updates j p)
                = Some (Platform.mk_motion y0 100 2 (if (k + j <=? 50)%nat then 1 else -1))).
  { intros k j. revert k. induction j as [|j IH]; intros k p Hkj Hk Hty Hy Hm.
    - cbn [platform_updates]. rewrite Nat.add_0_r. auto.
    - cbn [platform_updates].
      assert (Hk50 : (k <= 50)%nat) by lia.
      assert (E50 : (k <=? 50)%nat = true) by (apply Nat.leb_le; exact Hk50).
      rewrite E50 in Hm.
      destruct (G k p Hk50 Hty Hy Hm) as (T1 & Y1 & M1).
      replace (k + S j)%nat with (S k + j)%nat by lia.
      apply IH; try assumption; lia. }
  intros Hn p. subst p.
  destruct (H 0%nat n (Platform.init x0 y0 w MOVING)) as [A B];
    try reflexivity; try lia.
  - cbn. lia.
  - cbn [Nat.add] in *. split; assumption.
Qed.

(** X1.  A MOVING platform oscillates about the height it was created at: after
    any number of updates it is within 102 of it (the range of 100 plus one
    step of 2, which it does reach, after 51 updates), it is still active,
    and its x, width and type are what they were. *)
Theorem moving_platform_oscillates (x0 y0 w : Z) (n : nat) :
  let p := platform_updates n (Platform.init x0 y0 w MOVING) in
  Z.abs (Platform.y p - y0) <= 102
  /\ Platform.active p = true
  /\ Platform.x p = x0 /\ Platform.width p = w /\ Platform.platform_type p = MOVING
  /\ Platform.y (platform_updates 51 (Platform.init x0 y0 w MOVING)) = y0 + 102.
Proof.
  intro p. subst p.
  destruct (updates_swinging n (Platform.init x0 y0 w MOVING)
              (Platform.mk_motion y0 100 2 1) eq_refl (init_swinging x0 y0 w) eq_refl)
    as ((m & Hm & _ & _ & Hd) & A & m' & Hm' & O).
  assert (m = m') by congruence. subst m'. cbn in O.
  destruct (platform_updates_frame n (Platform.init x0 y0 w MOVING)) as (X & W & _ & T).
  destruct (moving_first_leg 51 x0 y0 w ltac:(lia)) as [Y _].
  split; [destruct Hd as [[_ B] | [_ B]]; lia|].
  split; [exact A|]. split; [exact X|]. split; [exact W|]. split; [exact T|].
  rewrite Y. reflexivity.
Qed.

(** ** Platform: the life of a crumbling platform *)

Lemma crumbling_update (p : Platform.t) :
  Platform.platform_type p = CRUMBLING ->
  Platform.update p =
    if 0 <? Platform.crumble_timer p
    then if Platform.crumble_timer p - 1 <=? 0
         then Platform.set_active false
                (Platform.set_crumble_timer (Platform.crumble_timer p - 1) p)
         else Platform.set_crumble_timer (Platform.crumble_timer p - 1) p
    else p.
Proof.
  intro Hty. unfold Platform.update, Platform.update_crumbling, Platform.update_moving.
  rewrite Hty. cbn [PlatformType_eqb andb].
  destruct (0 <? Platform.crumble_timer p); [|rewrite Hty; reflexivity].
  cbn [Platform.crumble_timer Platform.set_crumble_timer].
  destruct (Platform.crumble_timer p - 1 <=? 0); cbn; rewrite Hty; reflexivity.
Qed.

(** A crumbling platform whose timer is at zero is at rest: updates do not
    change it. *)
Lemma crumbling_at_rest (n : nat) :
  forall p : Platform.t,
  Platform.platform_type p = CRUMBLING ->
  Platform.crumble_timer p = 0 ->
  platform_updates n p = p.
Proof.
  induction n as [|n IH]; intros p Hty Ht; cbn [platform_updates]; [reflexivity|].
  rewrite (crumbling_update p Hty), Ht. cbn. apply IH; assumption.
Qed.

Lemma crumbling_runs_down (n : nat) :
  forall p : Platform.t,
  Platform.platform_type p = CRUMBLING ->
  0 < Platform.crumble_timer p ->
  let q := platform_updates n p in
  (Z.of_nat n < Platform.crumble_timer p ->
   Platform.active q = Platform.active p
   /\ Platform.crumble_timer q = Platform.crumble_timer p - Z.of_nat n)
  /\ (Platform.crumble_timer p <= Z.of_nat n ->
      Platform.active q = false /\ Platform.crumble_timer q = 0)
  /\ Platform.y q = Platform.y p.
Proof.
  induction n as [|n IH]; intros p Hty Ht; cbn [platform_updates].
  - cbn zeta. split; [intros _; split; [reflexivity | lia]|]. split; [lia | reflexivity].
  - pose proof (crumbling_update p Hty) as E.
    destruct (0 <? Platform.crumble_timer p) eqn:E0; [|apply Z.ltb_ge in E0; lia].
    destruct (Platform.crumble_timer p - 1 <=? 0) eqn:E1;
      [apply Z.leb_le in E1 | apply Z.leb_gt in E1]; rewrite E; cbn zeta.
    + (* the timer was at 1: the platform gives way *)
      rewrite crumbling_at_rest by (cbn; first [assumption | lia]). cbn.
      split; [lia|]. split; [intros _; split; [reflexivity | lia] | reflexivity].
    + destruct (IH (Platform.set_crumble_timer (Platform.crumble_timer p - 1) p)
                   Hty ltac:(cbn; lia)) as (I1 & I2 & I3).
      cbn [Platform.crumble_timer Platform.set_crumble_timer Platform.active Platform.y]
        in I1, I2, I3.
      split; [intro H; destruct (I1 ltac:(lia)) as [A B]; split; [exact A | lia]|].
      split; [intro H; apply I2; lia | exact I3].
Qed.

(** X2.  A crumbling platform at rest stays as it is through any number of
    updates.  Once [start_crumble] has been called it stays active for the
    next 29 updates, its timer going down from 30, and the 30th update makes
    it inactive with the timer back at zero; it is inactive after every later
    update, and it never moves. *)
Theorem crumbling_platform_lifecycle (p : Platform.t) (n : nat) :
  Platform.platform_type p = CRUMBLING ->
  Platform.crumble_timer p = 0 ->
  Platform.active p = true ->
  let q := platform_updates n (Platform.start_crumble p) in
  platform_updates n p = p
  /\ (Z.of_nat n < 30 ->
      Platform.active q = true /\ Platform.crumble_timer q = 30 - Z.of_nat n)
  /\ (30 <= Z.of_nat n -> Platform.active q = false /\ Platform.crumble_timer q = 0)
  /\ Platform.x q = Platform.x p /\ Platform.y q = Platform.y p.
Proof.
  intros Hty Ht Ha q. subst q.
  assert (E : Platform.start_crumble p = Platform.set_crumble_timer 30 p).
  { unfold Platform.start_crumble. rewrite Ht. reflexivity. }
  rewrite E.
  destruct (crumbling_runs_down n (Platform.set_crumble_timer 30 p) Hty ltac:(cbn; lia))
    as (R1 & R2 & R3).
  cbn [Platform.crumble_timer Platform.set_crumble_timer Platform.active Platform.y]
    in R1, R2, R3.
  destruct (platform_updates_frame n (Platform.set_crumble_timer 30 p)) as (X & _).
  split; [apply crumbling_at_rest; assumption|].
  split; [intro H; destruct (R1 H) as [A B]; split; [congruence | exact B]|].
  split; [exact R2|]. split; [exact X | exact R3].
Qed.

Lemma crumbling_platform_lifecycle_witness :
  let p := Platform.init 300 400 120 CRUMBLING in
  Platform.active (platform_updates 29 (Platform.start_crumble p)) = true
  /\ Platform.active (platform_updates 30 (Platform.start_crumble p)) = false.
Proof.
  destruct (crumbling_platform_lifecycle (Platform.init 300 400 120 CRUMBLING) 29
              eq_refl eq_refl eq_refl) as (_ & A & _).
  destruct (crumbling_platform_lifecycle (Platform.init 300 400 120 CRUMBLING) 30
              eq_refl eq_refl eq_refl) as (_ & _ & B & _).
  split; [apply A; reflexivity | apply B; discriminate].
Defined.

(** ** What the generator and the session keep true of the platforms *)

Lemma platform_ok_init (cfg : Config) (x0 y0 w : Z) (ty : PlatformType) :
  60 <= w -> 150 <= y0 <= lowest_y cfg -> platform_ok cfg (Platform.init x0 y0 w ty).
Proof.
  intros Hw Hy. unfold platform_ok. cbn.
  split; [exact Hw|]. split; [reflexivity|]. split; [lia|]. split; [auto|].
  destruct ty; try exact Hy.
  split; [apply init_swinging|]. intros m E. injection E as <-. exact Hy.
Qed.

Lemma platform_ok_update (cfg : Config) (p : Platform.t) :
  platform_ok cfg p -> platform_ok cfg (Platform.update p).
Proof.
  intros (Hw & Hh & Ht & Hnc & Hy).
  destruct (platform_update_frame p) as (_ & W & H & T).
  unfold platform_ok. rewrite W, H, T.
  destruct (Platform.platform_type p) eqn:Hty.
  - (* NORMAL *)
    assert (E : Platform.update p = p).
    { unfold Platform.update, Platform.update_crumbling, Platform.update_moving.
      rewrite Hty. cbn. rewrite Hty. reflexivity. }
    rewrite E. auto.
  - (* CRUMBLING *)
    rewrite (crumbling_update p Hty).
    destruct (0 <? Platform.crumble_timer p) eqn:E0;
      [apply Z.ltb_lt in E0 | auto 6].
    destruct (Platform.crumble_timer p - 1 <=? 0); cbn;
      (split; [exact Hw|]; split; [exact Hh|]; split; [lia|];
       split; [intro C; congruence | exact Hy]).
  - (* BOUNCY *)
    assert (E : Platform.update p = p).
    { unfold Platform.update, Platform.update_crumbling, Platform.update_moving.
      rewrite Hty. cbn. rewrite Hty. reflexivity. }
    rewrite E. auto.
  - (* MOVING *)
    destruct Hy as [Hs Ho].
    destruct (update_swinging p Hty Hs) as (S1 & A1 & C1 & M1).
    rewrite A1, C1.
    split; [exact Hw|]. split; [exact Hh|]. split; [exact Ht|]. split; [exact Hnc|].
    split; [exact S1|].
    intros m' E'. destruct Hs as (m & Hm & _).
    destruct (M1 m Hm) as (m1 & Hm1 & O1).
    assert (m' = m1) by congruence. subst m'. rewrite O1. apply Ho. exact Hm.
Qed.

Lemma platform_ok_touched (cfg : Config) (a b : Platform.t) :
  touched a b -> platform_ok cfg a -> platform_ok cfg b.
Proof.
  intros [-> | (Hty & _ & ->)] H; [exact H|].
  destruct H as (Hw & Hh & Ht & Hnc & Hy).
  unfold Platform.start_crumble.
  destruct (Platform.crumble_timer a =? 0); [|unfold platform_ok; auto 6].
  unfold platform_ok. cbn. rewrite Hty in *.
  split; [exact Hw|]. split; [exact Hh|]. split; [lia|].
  split; [intro C; congruence | exact Hy].
Qed.

Lemma touched_frame (a b : Platform.t) :
  touched a b ->
  Platform.x b = Platform.x a /\ Platform.platform_type b = Platform.platform_type a.
Proof.
  intros [-> | (_ & _ & ->)]; [auto|].
  unfold Platform.start_crumble. destruct (Platform.crumble_timer a =? 0); auto.
Qed.

(** The collision loop touches the platforms one by one and keeps the list
    in order. *)
Lemma collisions_shared_touch (cfg : Config) (store : list Platform.t) :
  forall p : Player.t,
  Forall2 touched store (snd (Player.collisions_shared cfg p store)).
Proof.
  induction store as [|a rest IH]; intro p; cbn [Player.collisions_shared].
  - constructor.
  - assert (H : touched a
                  (snd (if Platform.active a then Player.collide cfg p a else (p, a)))).
    { destruct (Platform.active a) eqn:A; [|left; reflexivity].
      unfold Player.collide, Player.handle_collision.
      destruct (Player.check_collision p a); [|left; reflexivity].
      destruct (Player.lands_on p a); [|left; reflexivity].
      destruct (Platform.platform_type a) eqn:T; cbn; try (left; reflexivity).
      right. auto. }
    destruct (if Platform.active a then Player.collide cfg p a else (p, a)) as [p1 a1].
    specialize (IH p1).
    destruct (Player.collisions_shared cfg p1 rest) as [p2 rest1].
    cbn [snd] in *. constructor; assumption.
Qed.

Lemma spaced_same_x (l l' : list Platform.t) :
  Forall2 (fun a b => Platform.x b = Platform.x a) l l' -> spaced l -> spaced l'.
Proof.
  induction 1 as [|a b l l' Hab Hrest IH]; [auto|].
  cbn [spaced]. intros [Hf Hs]. split; [|apply IH; exact Hs].
  rewrite Hab. clear IH Hs.
  induction Hrest as [|c d l l' Hcd _ IH]; [constructor|].
  inversion Hf; subst. constructor; [rewrite Hcd; assumption | apply IH; assumption].
Qed.

Lemma spaced_filter (f : Platform.t -> bool) (l : list Platform.t) :
  spaced l -> spaced (filter f l).
Proof.
  induction l as [|a l IH]; [auto|].
  cbn [spaced filter]. intros [Hf Hs].
  destruct (f a); [|apply IH; exact Hs].
  cbn [spaced]. split; [|apply IH; exact Hs].
  apply Forall_forall. intros q Hq. apply filter_In in Hq.
  rewrite Forall_forall in Hf. apply Hf. apply Hq.
Qed.

Lemma spaced_app (l : list Platform.t) (b : Platform.t) (frontier : Z) :
  spaced l ->
  Forall (fun p => Platform.x p <= frontier) l ->
  frontier + 80 <= Platform.x b ->
  spaced (l ++ [b]).
Proof.
  intros Hs Hf Hb. induction l as [|a l IH]; cbn [app spaced].
  - split; [constructor | exact I].
  - destruct Hs as [H1 H2]. inversion Hf; subst.
    split; [|apply IH; assumption].
    apply Forall_app. split; [exact H1|]. constructor; [lia | constructor].
Qed.

(** One call of [generate_platform], in full: the new platform is a freshly
    constructed one, at least 80 beyond the frontier, at a height within the
    clamp, at least 60 wide, and NORMAL while the difficulty is below a
    half. *)
Lemma generate_platform_shape (R : PyRandom) (cfg : Config)
      (g : PlatformGenerator.t) (r : rng R) :
  exists (spacing new_y width : Z) (ty : PlatformType) (r' : rng R),
    PlatformGenerator.generate_platform R cfg g r =
      (PlatformGenerator.mk (PlatformGenerator.seed g)
         (PlatformGenerator.platforms g
            ++ [Platform.init (PlatformGenerator.last_platform_x g + spacing)
                              new_y width ty])
         (PlatformGenerator.last_platform_x g + spacing) new_y
         (Py.min (inject_Z (PlatformGenerator.last_platform_x g + spacing) / 1000) 5),
       r')
    /\ 80 <= spacing /\ 150 <= new_y <= lowest_y cfg /\ 60 <= width
    /\ (Py.ltb (PlatformGenerator.difficulty g) (5 # 10) = true -> ty = NORMAL).
Proof.
  unfold PlatformGenerator.generate_platform, PlatformGenerator.choose_platform_type,
    bind, ret, lowest_y.
  destruct (random_randint R (-50) _ r) as [a r1].
  destruct (random_randint R _ _ r1) as [b r2].
  destruct (random_randint R (-30) 30 r2) as [c r3].
  destruct (Py.ltb (PlatformGenerator.difficulty g) (5 # 10)).
  - do 5 eexists. split; [reflexivity|]. repeat split; lia.
  - destruct (random_random R r3) as [v r4].
    do 5 eexists. split; [reflexivity|]. repeat split; try lia; discriminate.
Qed.

(** A difficulty of a half or more means the frontier is at 500 or beyond. *)
Lemma difficulty_half (g : PlatformGenerator.t) :
  difficulty_tracks_frontier g ->
  Py.ltb (PlatformGenerator.difficulty g) (5 # 10) = false ->
  500 <= PlatformGenerator.last_platform_x g.
Proof.
  intros [H0 Hd] Hlt. apply ltb_ge in Hlt. rewrite Hd in Hlt.
  unfold clamp in Hlt.
  set (v := (inject_Z (PlatformGenerator.last_platform_x g) / 1000)%Q) in *.
  assert (Hv : (5 # 10 <= v)%Q).
  { destruct (Py.ltb v 0) eqn:E1; [exfalso; revert Hlt; apply Qlt_not_le; reflexivity|].
    destruct (Py.ltb 5 v) eqn:E2; [|exact Hlt].
    apply ltb_lt in E2. apply Qlt_le_weak. eapply Qle_lt_trans; [|exact E2]. discriminate. }
  subst v. unfold Qle in Hv. cbn in Hv. lia.
Qed.

Lemma generate_platform_ok (R : PyRandom) (cfg : Config)
      (g : PlatformGenerator.t) (r : rng R) :
  generator_ok cfg g ->
  generator_ok cfg (fst (PlatformGenerator.generate_platform R cfg g r)).
Proof.
  intros (Hok & Hsp & Hfr & Hsafe & Htr).
  pose proof (generate_platform_tracks R cfg g r (proj1 Htr)) as Htr'.
  destruct (generate_platform_shape R cfg g r)
    as (sp & y & w & ty & r' & E & Hs & Hy & Hw & Hty).
  rewrite E in *. cbn [fst PlatformGenerator.platforms PlatformGenerator.last_platform_x].
  unfold generator_ok.
  cbn [PlatformGenerator.platforms PlatformGenerator.last_platform_x].
  split; [apply Forall_app; split; [exact Hok|];
          constructor; [apply platform_ok_init; assumption | constructor]|].
  split; [eapply spaced_app; [exact Hsp | exact Hfr | cbn; lia]|].
  split; [apply Forall_app; split;
          [eapply Forall_impl; [|exact Hfr]; cbn; intros; lia
          | constructor; [cbn; lia | constructor]]|].
  split; [|exact Htr'].
  apply Forall_app. split; [exact Hsafe|]. constructor; [|constructor].
  cbn. intro Hx.
  destruct (Py.ltb (PlatformGenerator.difficulty g) (5 # 10)) eqn:D; [auto|].
  pose proof (difficulty_half g Htr D). lia.
Qed.

Lemma generate_platforms_ok (R : PyRandom) (cfg : Config) (n : nat) :
  forall (g : PlatformGenerator.t) (r : rng R),
  generator_ok cfg g ->
  generator_ok cfg (fst (PlatformGenerator.generate_platforms R cfg n g r)).
Proof.
  induction n as [|n IH]; intros g r H; [exact H|].
  cbn [PlatformGenerator.generate_platforms]. unfold bind.
  pose proof (generate_platform_ok R cfg g r H) as H1.
  destruct (PlatformGenerator.generate_platform R cfg g r) as [g1 r1].
  apply IH. exact H1.
Qed.

Lemma generate_while_ok (R : PyRandom) (cfg : Config) (bound : Q) (fuel : nat) :
  forall (g : PlatformGenerator.t) (r : rng R),
  generator_ok cfg g ->
  generator_ok cfg (fst (PlatformGenerator.generate_while R cfg fuel bound g r)).
Proof.
  induction fuel as [|fuel IH]; intros g r H; [exact H|].
  cbn [PlatformGenerator.generate_while].
  destruct (Py.ltb _ bound); [|exact H]. unfold bind.
  pose proof (generate_platform_ok R cfg g r H) as H1.
  destruct (PlatformGenerator.generate_platform R cfg g r) as [g1 r1].
  apply IH. exact H1.
Qed.

Lemma init_ok (R : PyRandom) (cfg : Config) (seed_arg : option Z) (r : rng R) :
  generator_ok cfg (fst (PlatformGenerator.init R cfg seed_arg r)).
Proof.
  unfold PlatformGenerator.init, bind.
  match goal with
  | |- context [let '(a, _) := ?m in _] => destruct m as [the_seed r1]
  end.
  apply generate_platforms_ok.
  unfold generator_ok, PlatformGenerator.generate_starting_platform. cbn.
  split; [constructor; [apply platform_ok_init; unfold lowest_y; lia | constructor]|].
  split; [split; [constructor | exact I]|].
  split; [constructor; [cbn; lia | constructor]|].
  split; [constructor; [reflexivity | constructor]|].
  split; [cbn; lia | reflexivity].
Qed.

Lemma Forall2_Forall (P Q : Platform.t -> Prop) (rel : Platform.t -> Platform.t -> Prop)
      (l l' : list Platform.t) :
  (forall a b, rel a b -> P a -> Q b) ->
  Forall2 rel l l' -> Forall P l -> Forall Q l'.
Proof.
  intros Hrel H2. induction H2 as [|a b l l' Hab _ IH]; intro HP; [constructor|].
  inversion HP; subst. constructor; [eapply Hrel; eassumption | auto].
Qed.

(** A list the platforms of which were each updated or touched keeps what
    held of it. *)
Lemma platforms_ok_related (cfg : Config) (rel : Platform.t -> Platform.t -> Prop)
      (frontier : Z) (l l' : list Platform.t) :
  (forall a b, rel a b ->
     Platform.x b = Platform.x a
     /\ Platform.platform_type b = Platform.platform_type a
     /\ (platform_ok cfg a -> platform_ok cfg b)) ->
  Forall2 rel l l' ->
  Forall (platform_ok cfg) l /\ spaced l
  /\ Forall (fun p => Platform.x p <= frontier) l
  /\ Forall (fun p => Platform.x p < 500 -> Platform.platform_type p = NORMAL) l ->
  Forall (platform_ok cfg) l' /\ spaced l'
  /\ Forall (fun p => Platform.x p <= frontier) l'
  /\ Forall (fun p => Platform.x p < 500 -> Platform.platform_type p = NORMAL) l'.
Proof.
  intros Hrel H2 (Hok & Hsp & Hfr & Hsafe).
  split; [|split; [|split]].
  - eapply Forall2_Forall; [|exact H2 | exact Hok].
    intros a b Hab. apply (Hrel a b Hab).
  - eapply spaced_same_x; [|exact Hsp].
    eapply Forall2_impl; [|exact H2]. intros a b Hab. apply (Hrel a b Hab).
  - eapply Forall2_Forall; [|exact H2 | exact Hfr].
    intros a b Hab. cbn. destruct (Hrel a b Hab) as (X & _). rewrite X. auto.
  - eapply Forall2_Forall; [|exact H2 | exact Hsafe].
    intros a b Hab. cbn. destruct (Hrel a b Hab) as (X & T & _). rewrite X, T. auto.
Qed.

Lemma Forall2_map_self (f : Platform.t -> Platform.t) (l : list Platform.t) :
  Forall2 (fun a b => b = f a) l (map f l).
Proof. induction l; cbn; constructor; auto. Qed.

Lemma generator_update_ok (R : PyRandom) (cfg : Config) (player : Player.t)
      (g : PlatformGenerator.t) (r : rng R) :
  generator_ok cfg g ->
  generator_ok cfg (fst (PlatformGenerator.update R cfg player g r)).
Proof.
  intros (Hok & Hsp & Hfr & Hsafe & Htr).
  unfold PlatformGenerator.update, bind, ret.
  match goal with
  | |- context [PlatformGenerator.generate_while R cfg ?f ?b ?g1 r] =>
      assert (H1 : generator_ok cfg g1);
      [| pose proof (generate_while_ok R cfg b f g1 r H1) as H2;
         destruct (PlatformGenerator.generate_while R cfg f b g1 r) as [g2 r2]]
  end.
  - unfold generator_ok. cbn [PlatformGenerator.platforms PlatformGenerator.last_platform_x].
    split; [apply Forall_forall; intros p Hp; apply filter_In in Hp;
            rewrite Forall_forall in Hok; apply Hok; apply Hp|].
    split; [apply spaced_filter; exact Hsp|].
    split; [apply Forall_forall; intros p Hp; apply filter_In in Hp;
            rewrite Forall_forall in Hfr; apply Hfr; apply Hp|].
    split; [apply Forall_forall; intros p Hp; apply filter_In in Hp;
            rewrite Forall_forall in Hsafe; apply Hsafe; apply Hp|].
    exact Htr.
  - cbn [fst] in *. destruct H2 as (Hok2 & Hsp2 & Hfr2 & Hsafe2 & Htr2).
    unfold generator_ok. cbn [PlatformGenerator.platforms PlatformGenerator.last_platform_x].
    destruct (platforms_ok_related cfg (fun a b => b = Platform.update a)
                (PlatformGenerator.last_platform_x g2)
                (PlatformGenerator.platforms g2)
                (map Platform.update (PlatformGenerator.platforms g2)))
      as (A & B & C & D).
    + intros a b ->. destruct (platform_update_frame a) as (X & _ & _ & T).
      split; [exact X | split; [exact T | apply platform_ok_update]].
    + apply Forall2_map_self.
    + auto.
    + split; [exact A|]. split; [exact B|]. split; [exact C|]. split; [exact D|].
      exact Htr2.
Qed.

Lemma reachable_ok (R : PyRandom) (cfg : Config) (g : PlatformGenerator.t) :
  reachable R cfg g -> generator_ok cfg g.
Proof.
  induction 1 as [seed_arg r | g r _ IH | g player r _ IH].
  - apply init_ok.
  - apply generate_platform_ok. exact IH.
  - apply generator_update_ok. exact IH.
Qed.

Lemma playing_ok (R : PyRandom) (cfg : Config) (g : Game.t R) :
  playing R cfg g -> generator_ok cfg (Game.generator g).
Proof.
  assert (Hreset : forall (running0 : bool) (r : rng R) (g1 : Game.t R),
             Game.reset_game_body R cfg running0 r = Py.Ok g1 ->
             generator_ok cfg (Game.generator g1)).
  { intros running0 r g1 E.
    destruct (reset_game_body_fresh R cfg running0 r) as (g2 & E2 & _ & Fg).
    rewrite E2 in E. injection E as <-. rewrite Fg. apply init_ok. }
  induction 1 as [r g E | e g g' _ IH E | keys g _ IH].
  - eapply Hreset. apply init_ok_reset. exact E.
  - destruct e; cbn in E.
    + injection E as <-. exact IH.
    + injection E as <-. exact IH.
    + destruct (Game.game_over g); [eapply Hreset; exact E | injection E as <-; exact IH].
    + injection E as <-. exact IH.
  - unfold Game.update. destruct (Game.game_over g); [exact IH|].
    pose proof (generator_update_ok R cfg (Game.player g) (Game.generator g)
                  (Game.random_state g) IH) as H1.
    destruct (PlatformGenerator.update R cfg _ _ _) as [gen1 r1]. cbn [fst] in H1.
    pose proof (collisions_shared_touch cfg (PlatformGenerator.platforms gen1)
                  (Player.move cfg keys (Game.player g))) as T.
    unfold Player.update_shared.
    destruct (Player.collisions_shared cfg _ _) as [player1 platforms1]. cbn [snd] in T.
    cbn [Game.generator].
    destruct H1 as (Hok & Hsp & Hfr & Hsafe & Htr).
    destruct (platforms_ok_related cfg touched (PlatformGenerator.last_platform_x gen1)
                (PlatformGenerator.platforms gen1) platforms1)
      as (A & B & C & D).
    + intros a b Hab. destruct (touched_frame a b Hab) as [X T'].
      split; [exact X | split; [exact T' | apply platform_ok_touched; exact Hab]].
    + exact T.
    + auto.
    + unfold generator_ok. cbn. auto.
Qed.

Lemma in_use_ok (R : PyRandom) (cfg : Config) (g : PlatformGenerator.t) :
  in_use R cfg g -> generator_ok cfg g.
Proof.
  intros [H | (s & H & <-)]; [apply (reachable_ok R) | apply (playing_ok R)]; exact H.
Qed.

Lemma generator_42_in_use : in_use Lcg.R reference_config generator_42.
Proof. left. exact (reachable_init Lcg.R reference_config (Some 42) 7). Qed.

(** X3.  The live list is in generation order with room between the
    platforms: each platform lies at least 80 to the right of every platform
    before it in the list, and none lies beyond [last_platform_x]. *)
Theorem platforms_are_spaced (R : PyRandom) (cfg : Config) (g : PlatformGenerator.t) :
  in_use R cfg g ->
  spaced (PlatformGenerator.platforms g)
  /\ Forall (fun p => Platform.x p <= PlatformGenerator.last_platform_x g)
            (PlatformGenerator.platforms g).
Proof. intro H. destruct (in_use_ok R cfg g H) as (_ & A & B & _). auto. Qed.

Lemma platforms_are_spaced_witness :
  spaced (PlatformGenerator.platforms generator_42)
  /\ map Platform.x (firstn 4 (PlatformGenerator.platforms generator_42))
     = [0; 193; 314; 451].
Proof.
  split; [|vm_compute; reflexivity].
  apply (platforms_are_spaced Lcg.R reference_config generator_42 generator_42_in_use).
Defined.

(** X4.  Every platform of the live list is at least 60 wide and 20 high, and
    its crumble timer is between 0 and 30. *)
Theorem platforms_keep_their_size (R : PyRandom) (cfg : Config)
        (g : PlatformGenerator.t) :
  in_use R cfg g ->
  Forall (fun p => 60 <= Platform.width p /\ Platform.height p = 20
                   /\ 0 <= Platform.crumble_timer p <= 30)
         (PlatformGenerator.platforms g).
Proof.
  intro H. destruct (in_use_ok R cfg g H) as (A & _).
  eapply Forall_impl; [|exact A]. cbn. intros p (Hw & Hh & Ht & _). auto.
Qed.

Lemma platforms_keep_their_size_witness :
  Forall (fun p => 60 <= Platform.width p /\ Platform.height p = 20
                   /\ 0 <= Platform.crumble_timer p <= 30)
         (PlatformGenerator.platforms generator_42).
Proof.
  apply (platforms_keep_their_size Lcg.R reference_config generator_42 generator_42_in_use).
Defined.

(** X5.  Only crumbling platforms ever become inactive or count down: every
    platform of another type in the live list is active with its crumble
    timer at zero, whatever the player has landed on. *)
Theorem only_crumbling_platforms_vanish (R : PyRandom) (cfg : Config)
        (g : PlatformGenerator.t) :
  in_use R cfg g ->
  Forall (fun p => Platform.platform_type p <> CRUMBLING ->
                   Platform.active p = true /\ Platform.crumble_timer p = 0)
         (PlatformGenerator.platforms g).
Proof.
  intro H. destruct (in_use_ok R cfg g H) as (A & _).
  eapply Forall_impl; [|exact A]. cbn. intros p (_ & _ & _ & Hc & _). exact Hc.
Qed.

Lemma only_crumbling_platforms_vanish_witness :
  Forall (fun p => Platform.platform_type p <> CRUMBLING ->
                   Platform.active p = true /\ Platform.crumble_timer p = 0)
         (PlatformGenerator.platforms generator_42).
Proof.
  apply (only_crumbling_platforms_vanish Lcg.R reference_config generator_42
           generator_42_in_use).
Defined.

(** X6.  Platforms stay within fixed heights.  A platform that is not MOVING
    is where it was generated, between 150 and [lowest_y] (500 with the
    constants of the source); a MOVING platform carries its motion attributes
    and is within 102 of a height in that band. *)
Theorem platforms_stay_in_band (R : PyRandom) (cfg : Config) (g : PlatformGenerator.t) :
  in_use R cfg g ->
  lowest_y reference_config = 500
  /\ Forall (fun p =>
               match Platform.platform_type p with
               | MOVING =>
                   exists m, Platform.moving p = Some m
                             /\ 150 <= Platform.original_y m <= lowest_y cfg
                             /\ Z.abs (Platform.y p - Platform.original_y m) <= 102
               | _ => 150 <= Platform.y p <= lowest_y cfg
               end)
            (PlatformGenerator.platforms g).
Proof.
  intro H. split; [reflexivity|]. destruct (in_use_ok R cfg g H) as (A & _).
  eapply Forall_impl; [|exact A]. cbn. intros p (_ & _ & _ & _ & Hy).
  destruct (Platform.platform_type p); try exact Hy.
  destruct Hy as [(m & Hm & _ & _ & Hd) Ho].
  exists m. split; [exact Hm|]. split; [apply Ho; exact Hm|].
  destruct Hd as [[_ B] | [_ B]]; lia.
Qed.

Lemma platforms_stay_in_band_witness :
  Forall (fun p =>
            match Platform.platform_type p with
            | MOVING =>
                exists m, Platform.moving p = Some m
                          /\ 150 <= Platform.original_y m <= 500
                          /\ Z.abs (Platform.y p - Platform.original_y m) <= 102
            | _ => 150 <= Platform.y p <= 500
            end)
         (PlatformGenerator.platforms generator_42).
Proof.
  apply (platforms_stay_in_band Lcg.R reference_config generator_42 generator_42_in_use).
Defined.

(** X7.  The start is safe: every platform of the live list that lies in the
    first 500 units is NORMAL. *)
Theorem early_platforms_are_normal (R : PyRandom) (cfg : Config)
        (g : PlatformGenerator.t) :
  in_use R cfg g ->
  Forall (fun p => Platform.x p < 500 -> Platform.platform_type p = NORMAL)
         (PlatformGenerator.platforms g).
Proof. intro H. destruct (in_use_ok R cfg g H) as (_ & _ & _ & A & _). exact A. Qed.

Lemma early_platforms_are_normal_witness :
  Forall (fun p => Platform.x p < 500 -> Platform.platform_type p = NORMAL)
         (PlatformGenerator.platforms generator_42).
Proof.
  apply (early_platforms_are_normal Lcg.R reference_config generator_42
           generator_42_in_use).
Defined.

(** X8.  The difficulty stays between 0 and 5; it is a thousandth of the
    frontier until the frontier passes 5000 and 5 from then on. *)
Theorem difficulty_is_bounded (R : PyRandom) (cfg : Config) (g : PlatformGenerator.t) :
  in_use R cfg g ->
  (0 <= PlatformGenerator.difficulty g <= 5)%Q
  /\ (PlatformGenerator.last_platform_x g <= 5000 ->
      (PlatformGenerator.difficulty g
       == inject_Z (PlatformGenerator.last_platform_x g) / 1000)%Q)
  /\ (5000 <= PlatformGenerator.last_platform_x g ->
      (PlatformGenerator.difficulty g == 5)%Q).
Proof.
  intro H. destruct (in_use_ok R cfg g H) as (_ & _ & _ & _ & H0 & Hd).
  rewrite Hd. unfold clamp.
  set (x := PlatformGenerator.last_platform_x g) in *.
  assert (Hv : (0 <= inject_Z x / 1000)%Q) by (unfold Qle; cbn; lia).
  apply ltb_ge in Hv. rewrite Hv. apply ltb_ge in Hv.
  destruct (Py.ltb 5 (inject_Z x / 1000)) eqn:E;
    [apply ltb_lt in E | apply ltb_ge in E].
  - assert (5000 < x) by (unfold Qlt in E; cbn in E; lia).
    split; [split; discriminate|]. split; [lia | reflexivity].
  - assert (x <= 5000) by (unfold Qle in E; cbn in E; lia).
    split; [split; assumption|]. split; [reflexivity|].
    intro. assert (x = 5000) by lia. unfold Qeq. cbn. lia.
Qed.

Lemma difficulty_is_bounded_witness :
  (0 <= PlatformGenerator.difficulty generator_42 <= 5)%Q
  /\ (PlatformGenerator.difficulty generator_42 == 3007 # 1000)%Q.
Proof.
  destruct (difficulty_is_bounded Lcg.R reference_config generator_42 generator_42_in_use)
    as (B & _).
  split; [exact B | vm_compute; reflexivity].
Defined.

(** ** Player: timers *)

Lemma update_coyote_timers (cfg : Config) (p : Player.t) :
  0 <= COYOTE_TIME cfg -> timers_ok cfg p -> timers_ok cfg (Player.update_coyote cfg p).
Proof.
  unfold timers_ok, Player.update_coyote. intros Hc (A & B & C & D).
  destruct (Player.on_ground p); [cbn; repeat split; try lia; exact D|].
  destruct (0 <? Player.coyote_timer p) eqn:E; [apply Z.ltb_lt in E | auto].
  cbn. repeat split; try lia. exact D.
Qed.

Lemma controls_timers (cfg : Config) (keys : Keys) (p : Player.t) :
  0 <= COYOTE_TIME cfg -> 1 <= DASH_DURATION cfg ->
  timers_ok cfg p -> timers_ok cfg (Player.controls cfg keys p).
Proof.
  intros Hc Hd H. unfold Player.controls.
  assert (H1 : timers_ok cfg (Player.horizontal_movement cfg keys p)).
  { unfold Player.horizontal_movement.
    destruct (Player.dashing p) eqn:D; [exact H|].
    destruct (K_LEFT keys), (K_RIGHT keys); unfold timers_ok in *; cbn; rewrite D;
      intuition discriminate. }
  pose proof (update_coyote_timers cfg _ Hc H1) as H2.
  set (p2 := Player.update_coyote cfg _) in *.
  assert (H3 : timers_ok cfg (Player.jumping cfg keys p2)).
  { unfold Player.jumping. destruct (Player.jump_triggered keys p2); [|exact H2].
    unfold timers_ok in *. cbn. intuition lia. }
  set (p3 := Player.jumping cfg keys p2) in *.
  unfold Player.dash_mechanic. destruct (Player.dash_triggered keys p3); [|exact H3].
  destruct (Player.dash_direction keys) as [dx dy].
  destruct (Py.ltb 0 _); unfold timers_ok in *; cbn; intuition lia.
Qed.

Lemma physics_timers (cfg : Config) (p : Player.t) :
  timers_ok cfg p -> timers_ok cfg (Player.physics cfg p).
Proof.
  unfold timers_ok, Player.physics, Player.handle_dash, Player.cooldown,
    Player.apply_gravity.
  intros (A & B & C & D).
  destruct (Player.dashing p) eqn:Hd; cbn.
  - specialize (D eq_refl).
    destruct (Player.dash_timer p - 1 <=? 0) eqn:E;
      [apply Z.leb_le in E | apply Z.leb_gt in E]; cbn;
      destruct (0 <? Player.dash_cooldown p) eqn:E2;
      [apply Z.ltb_lt in E2 | apply Z.ltb_ge in E2
       | apply Z.ltb_lt in E2 | apply Z.ltb_ge in E2];
      cbn; rewrite ?Hd; cbn; repeat split; try lia; try discriminate.
  - destruct (0 <? Player.dash_cooldown p) eqn:E2;
      [apply Z.ltb_lt in E2 | apply Z.ltb_ge in E2];
      cbn; rewrite ?Hd; cbn; repeat split; try lia; try discriminate;
      rewrite Hd; discriminate.
Qed.

Lemma update_timers (cfg : Config) (keys : Keys) (platforms : list Platform.t)
      (p : Player.t) :
  0 <= COYOTE_TIME cfg -> 1 <= DASH_DURATION cfg ->
  timers_ok cfg p -> timers_ok cfg (fst (Player.update cfg keys platforms p)).
Proof.
  intros Hc Hd H.
  destruct (update_controls cfg keys platforms p) as (_ & _ & E1 & E2 & E3 & E4).
  pose proof (physics_timers cfg _ (controls_timers cfg keys p Hc Hd H)) as H1.
  unfold timers_ok in *. rewrite E1, E2, E3, E4. exact H1.
Qed.

(** X9.  The timers of the player stay in range through every update: the
    coyote timer between 0 and [COYOTE_TIME], the dash cooldown between 0 and
    60, the dash timer between 0 and [DASH_DURATION], and the dash timer is
    positive while the player is dashing. *)
Theorem player_timers_stay_in_range (cfg : Config)
        (inputs : list (Keys * list Platform.t)) (x0 y0 : Q) :
  0 <= COYOTE_TIME cfg ->
  1 <= DASH_DURATION cfg ->
  timers_ok cfg (run cfg inputs (Player.init x0 y0)).
Proof.
  intros Hc Hd.
  assert (G : forall p, timers_ok cfg p -> timers_ok cfg (run cfg inputs p)).
  { induction inputs as [|[keys platforms] rest IH]; intros p H; [exact H|].
    cbn [run]. apply IH. apply update_timers; assumption. }
  apply G. unfold timers_ok. cbn. repeat split; try lia; discriminate.
Qed.

Lemma player_timers_stay_in_range_witness :
  timers_ok reference_config
    (run reference_config ((keys_dash_up_right, []) :: idle 3) (Player.init 100 300))
  /\ Player.dash_timer
       (run reference_config ((keys_dash_up_right, []) :: idle 3) (Player.init 100 300))
     = 6.
Proof.
  split; [|vm_compute; reflexivity].
  apply (player_timers_stay_in_range reference_config
           ((keys_dash_up_right, []) :: idle 3) 100 300); cbn; lia.
Defined.

(** ** Player: the dash cooldown *)

Lemma controls_cooldown (cfg : Config) (keys : Keys) (p : Player.t) :
  Player.dash_cooldown (Player.controls cfg keys p)
  = if dashes cfg keys p then 60 else Player.dash_cooldown p.
Proof.
  unfold dashes, after_jump_block, Player.controls.
  destruct (before_dash_block cfg keys p) as (_ & B).
  set (p3 := Player.jumping cfg keys _) in *.
  unfold Player.dash_mechanic. destruct (Player.dash_triggered keys p3); [|exact B].
  destruct (Player.dash_direction keys) as [dx dy].
  destruct (Py.ltb 0 _); reflexivity.
Qed.

Lemma physics_cooldown (cfg : Config) (p : Player.t) :
  Player.dash_cooldown (Player.physics cfg p)
  = if 0 <? Player.dash_cooldown p then Player.dash_cooldown p - 1
    else Player.dash_cooldown p.
Proof.
  unfold Player.physics, Player.handle_dash, Player.cooldown, Player.apply_gravity.
  destruct (Player.dashing p) eqn:Hd; cbn;
    [destruct (Player.dash_timer p - 1 <=? 0); cbn |];
    destruct (0 <? Player.dash_cooldown p); cbn; rewrite ?Hd; reflexivity.
Qed.

Lemma dashes_needs_cooldown (cfg : Config) (keys : Keys) (p : Player.t) :
  0 < Player.dash_cooldown p -> dashes cfg keys p = false.
Proof.
  intro H. unfold dashes, after_jump_block, Player.dash_triggered.
  destruct (before_dash_block cfg keys p) as (_ & B). rewrite B.
  destruct (Player.dash_cooldown p <=? 0) eqn:E; [apply Z.leb_le in E; lia|].
  rewrite andb_false_r. reflexivity.
Qed.

Lemma update_cooldown (cfg : Config) (keys : Keys) (platforms : list Platform.t)
      (p : Player.t) :
  Player.dash_cooldown (fst (Player.update cfg keys platforms p))
  = if dashes cfg keys p then 59
    else if 0 <? Player.dash_cooldown p then Player.dash_cooldown p - 1
    else Player.dash_cooldown p.
Proof.
  destruct (update_controls cfg keys platforms p) as (_ & _ & _ & _ & E & _).
  rewrite E, physics_cooldown, controls_cooldown.
  destruct (dashes cfg keys p); reflexivity.
Qed.

(** X10.  The dash is rate limited.  The update that starts a dash leaves the
    cooldown at 59; it then goes down by one per update, whatever keys are
    held, and no dash can start while it is positive: not during the 59
    updates that follow the one that started the dash. *)
Theorem dash_is_rate_limited (cfg : Config) (p : Player.t) (keys : Keys)
        (platforms : list Platform.t) (inputs : list (Keys * list Platform.t))
        (keys' : Keys) :
  dashes cfg keys p = true ->
  (length inputs < 59)%nat ->
  let q := run cfg ((keys, platforms) :: inputs) p in
  Player.dash_cooldown q = 59 - Z.of_nat (length inputs)
  /\ dashes cfg keys' q = false.
Proof.
  intros Hd Hlen q. subst q. cbn [run].
  pose proof (update_cooldown cfg keys platforms p) as E. rewrite Hd in E.
  set (p1 := fst (Player.update cfg keys platforms p)) in *.
  assert (G : forall (l : list (Keys * list Platform.t)) (r : Player.t),
             Z.of_nat (length l) < Player.dash_cooldown r ->
             Player.dash_cooldown (run cfg l r)
             = Player.dash_cooldown r - Z.of_nat (length l)).
  { induction l as [|[k ps] l IH]; intros r Hr; cbn [run length] in *; [lia|].
    rewrite IH.
    - rewrite update_cooldown, dashes_needs_cooldown by lia.
      destruct (0 <? Player.dash_cooldown r) eqn:E0; [lia | apply Z.ltb_ge in E0; lia].
    - rewrite update_cooldown, dashes_needs_cooldown by lia.
      destruct (0 <? Player.dash_cooldown r) eqn:E0; [lia | apply Z.ltb_ge in E0; lia]. }
  rewrite G by lia. rewrite E.
  split; [reflexivity|]. apply dashes_needs_cooldown. rewrite G by lia. lia.
Qed.

Lemma dash_is_rate_limited_witness :
  let q := run reference_config ((keys_dash_up_right, []) :: idle 58) (Player.init 100 300) in
  Player.dash_cooldown q = 1 /\ dashes reference_config keys_dash_up_right q = false.
Proof.
  apply (dash_is_rate_limited reference_config (Player.init 100 300) keys_dash_up_right []
           (idle 58) keys_dash_up_right); [reflexivity | cbn; lia].
Defined.

(** ** Player: motion during a dash *)

(** X11.  In the middle of a dash the player moves in a straight line: an
    update on which the jump key is not held leaves both components of the
    velocity as they were, without gravity and whatever arrow keys are held,
    and before the platforms are looked at the position has advanced by
    exactly that velocity. *)
Theorem dash_moves_straight (cfg : Config) (keys : Keys) (p : Player.t) :
  Player.dashing p = true ->
  1 < Player.dash_timer p ->
  K_z keys = false ->
  let q := Player.move cfg keys p in
  Player.vel_x q = Player.vel_x p
  /\ Player.vel_y q = Player.vel_y p
  /\ Player.x q = (Player.x p + Player.vel_x p)%Q
  /\ Player.y q = (Player.y p + Player.vel_y p)%Q
  /\ Player.dashing q = true.
Proof.
  intros Hd Ht Hz q. subst q.
  unfold Player.move, Player.controls, Player.horizontal_movement. rewrite Hd.
  unfold Player.jumping, Player.jump_triggered. rewrite Hz. cbn [andb].
  assert (Hc : forall r, Player.dashing r = true ->
                         Player.dash_mechanic cfg keys r = r).
  { intros r E. unfold Player.dash_mechanic, Player.dash_triggered.
    rewrite E. cbn. rewrite andb_false_r. reflexivity. }
  assert (Hu : forall r, Player.dashing (Player.update_coyote cfg r) = Player.dashing r
                         /\ Player.dash_timer (Player.update_coyote cfg r)
                            = Player.dash_timer r
                         /\ Player.vel_x (Player.update_coyote cfg r) = Player.vel_x r
                         /\ Player.vel_y (Player.update_coyote cfg r) = Player.vel_y r
                         /\ Player.x (Player.update_coyote cfg r) = Player.x r
                         /\ Player.y (Player.update_coyote cfg r) = Player.y r).
  { intro r. unfold Player.update_coyote.
    destruct (Player.on_ground r); [|destruct (0 <? Player.coyote_timer r)]; cbn; auto 7. }
  destruct (Hu p) as (U1 & U2 & U3 & U4 & U5 & U6).
  set (p2 := Player.update_coyote cfg p) in *.
  rewrite Hc by congruence.
  unfold Player.physics, Player.handle_dash. rewrite U1, Hd, U2. cbn.
  destruct (Player.dash_timer p - 1 <=? 0) eqn:E; [apply Z.leb_le in E; lia|].
  unfold Player.cooldown, Player.apply_gravity.
  destruct (0 <? _); cbn; rewrite U1, Hd; cbn; rewrite U3, U4, U5, U6;
    repeat split; congruence.
Qed.

Lemma dash_moves_straight_witness :
  let p := run reference_config [(keys_dash_up_right, [])] (Player.init 100 300) in
  Player.vel_y (Player.move reference_config no_keys p) = Player.vel_y p
  /\ (Player.vel_y p < 0)%Q.
Proof.
  split; [|vm_compute; reflexivity].
  apply (dash_moves_straight reference_config no_keys
           (run reference_config [(keys_dash_up_right, [])] (Player.init 100 300)));
    [reflexivity | vm_compute; reflexivity | reflexivity].
Defined.

(** ** Player: one jump per time on the ground *)

(** In the air with the coyote timer run out, no keys bring it back. *)
Lemma coyote_spent_step (cfg : Config) (keys : Keys) (platforms : list Platform.t)
      (p : Player.t) :
  Player.on_ground p = false ->
  Player.coyote_timer p <= 0 ->
  jumps cfg keys p = false
  /\ Player.coyote_timer (fst (Player.update cfg keys platforms p)) <= 0.
Proof.
  intros Hg Ht.
  assert (E : Player.coyote_timer
                (Player.update_coyote cfg (Player.horizontal_movement cfg keys p))
              = Player.coyote_timer p).
  { rewrite jump_block_timer, Hg.
    destruct (0 <? Player.coyote_timer p) eqn:E0; [apply Z.ltb_lt in E0; lia | reflexivity]. }
  assert (J : jumps cfg keys p = false).
  { unfold jumps, Player.jump_triggered. rewrite E.
    destruct (0 <? Player.coyote_timer p) eqn:E0; [apply Z.ltb_lt in E0; lia|].
    rewrite andb_false_r. reflexivity. }
  split; [exact J|].
  destruct (update_controls cfg keys platforms p) as (_ & _ & _ & _ & _ & Hc).
  rewrite Hc.
  assert (Hphys : forall q, Player.coyote_timer (Player.physics cfg q)
                            = Player.coyote_timer q).
  { intro q. unfold Player.physics, Player.apply_gravity, Player.cooldown,
      Player.handle_dash.
    destruct (Player.dashing q); cbn;
      repeat match goal with
             | |- context [if ?c then _ else _] => destruct c; cbn
             end; reflexivity. }
  rewrite Hphys. unfold Player.controls.
  assert (Hdash : forall q, Player.coyote_timer (Player.dash_mechanic cfg keys q)
                            = Player.coyote_timer q).
  { intro q. unfold Player.dash_mechanic.
    destruct (Player.dash_triggered keys q); [|reflexivity].
    destruct (Player.dash_direction keys) as [dx dy].
    destruct (Py.ltb 0 _); reflexivity. }
  rewrite Hdash. unfold Player.jumping. unfold jumps in J. rewrite J, E. exact Ht.
Qed.

(** X12.  There is no second jump in the air.  After an update on which the
    jump succeeded, and as long as no update ends with the player on the
    ground, the jump condition is false on every update, whatever keys are
    held. *)
Theorem no_jump_until_landing (cfg : Config) (p : Player.t) (keys : Keys)
        (platforms : list Platform.t) (inputs : list (Keys * list Platform.t))
        (keys' : Keys) :
  jumps cfg keys p = true ->
  airborne cfg ((keys, platforms) :: inputs) p ->
  jumps cfg keys' (run cfg ((keys, platforms) :: inputs) p) = false.
Proof.
  intros Hj [Ha1 Ha2]. cbn [run].
  set (p1 := fst (Player.update cfg keys platforms p)) in *.
  assert (T1 : Player.coyote_timer p1 <= 0).
  { subst p1.
    destruct (update_controls cfg keys platforms p) as (_ & _ & _ & _ & _ & Hc).
    rewrite Hc.
    assert (Hphys : forall q, Player.coyote_timer (Player.physics cfg q)
                              = Player.coyote_timer q).
    { intro q. unfold Player.physics, Player.apply_gravity, Player.cooldown,
        Player.handle_dash.
      destruct (Player.dashing q); cbn;
        repeat match goal with
               | |- context [if ?c then _ else _] => destruct c; cbn
               end; reflexivity. }
    rewrite Hphys. unfold Player.controls.
    assert (Hdash : forall q, Player.coyote_timer (Player.dash_mechanic cfg keys q)
                              = Player.coyote_timer q).
    { intro q. unfold Player.dash_mechanic.
      destruct (Player.dash_triggered keys q); [|reflexivity].
      destruct (Player.dash_direction keys) as [dx dy].
      destruct (Py.ltb 0 _); reflexivity. }
    rewrite Hdash. unfold Player.jumping. unfold jumps in Hj. rewrite Hj. cbn. lia. }
  clearbody p1. clear Hj.
  revert p1 Ha1 Ha2 T1.
  induction inputs as [|[k ps] rest IH]; intros p1 Ha1 Ha2 T1; cbn [run].
  - apply (coyote_spent_step cfg keys' [] p1 Ha1 T1).
  - destruct Ha2 as [A1 A2].
    apply IH; [exact A1 | exact A2 |].
    apply (coyote_spent_step cfg k ps p1 Ha1 T1).
Qed.

Lemma no_jump_until_landing_witness :
  jumps reference_config keys_jump
    (run reference_config ((keys_jump, []) :: idle 2) grounded_player) = false.
Proof.
  apply (no_jump_until_landing reference_config grounded_player keys_jump [] (idle 2)
           keys_jump); [reflexivity | vm_compute; tauto].
Defined.

(** ** Player: what the platforms can do *)

(** A player that is not moving down is not touched by any platform. *)
Lemma collisions_rising (cfg : Config) (platforms : list Platform.t) (p : Player.t) :
  (Player.vel_y p <= 0)%Q ->
  Player.collisions cfg p platforms = (p, platforms).
Proof.
  intro Hv. induction platforms as [|a rest IH]; [reflexivity|].
  cbn [Player.collisions].
  assert (E : Player.collide cfg p a = (p, a)).
  { unfold Player.collide, Player.handle_collision, Player.lands_on.
    apply ltb_ge in Hv. rewrite Hv. cbn [andb].
    destruct (Player.check_collision p a); reflexivity. }
  rewrite E, IH. reflexivity.
Qed.

(** X13.  Platforms are solid from above only.  When the player is not moving
    down after the velocity step of an update, no platform of the list has
    any effect: the update returns the moved player, off the ground, and the
    platforms as they were. *)
Theorem rising_player_passes_through (cfg : Config) (keys : Keys)
        (platforms : list Platform.t) (p : Player.t) :
  (Player.vel_y (Player.move cfg keys p) <= 0)%Q ->
  Player.update cfg keys platforms p = (Player.move cfg keys p, platforms)
  /\ Player.on_ground (fst (Player.update cfg keys platforms p)) = false.
Proof.
  intro Hv. unfold Player.update. rewrite collisions_rising by exact Hv.
  split; [reflexivity|]. cbn [fst]. unfold Player.move, Player.physics. reflexivity.
Qed.

Lemma rising_player_passes_through_witness :
  let platform := Platform.init 50 320 200 NORMAL in
  let p := Player.mk 100 330 30 40 0 (-(10)) false 0 0 false 0 in
  Player.check_collision (Player.move reference_config no_keys p) platform = true
  /\ Player.update reference_config no_keys [platform] p
     = (Player.move reference_config no_keys p, [platform]).
Proof.
  split; [vm_compute; reflexivity|].
  apply (rising_player_passes_through reference_config no_keys
           [Platform.init 50 320 200 NORMAL]
           (Player.mk 100 330 30 40 0 (-(10)) false 0 0 false 0)).
  vm_compute. discriminate.
Defined.

Lemma collisions_grounded (cfg : Config) (platforms : list Platform.t) :
  forall p : Player.t,
  Player.on_ground p = false ->
  Player.on_ground (fst (Player.collisions cfg p platforms)) = true ->
  exists platform : Platform.t,
    In platform platforms
    /\ Platform.platform_type platform <> BOUNCY
    /\ Player.y (fst (Player.collisions cfg p platforms))
       = (inject_Z (Platform.y platform) - inject_Z (Player.height p))%Q
    /\ Player.vel_y (fst (Player.collisions cfg p platforms)) = 0%Q.
Proof.
  induction platforms as [|a rest IH]; intros p Hg Hq; cbn [Player.collisions] in *.
  - cbn in Hq. congruence.
  - unfold Player.collide, Player.handle_collision in *.
    destruct (Player.check_collision p a && Player.lands_on p a) eqn:C.
    + apply andb_true_iff in C. destruct C as [C1 C2]. rewrite C1, C2 in *.
      destruct (Platform.platform_type a) eqn:T.
      * rewrite collisions_rising in * by (cbn; discriminate).
        exists a. cbn. split; [auto|]. split; [congruence | auto].
      * rewrite collisions_rising in * by (cbn; discriminate).
        exists a. cbn. split; [auto|]. split; [congruence | auto].
      * match type of Hq with
        | context [Player.collisions cfg ?p1 rest] =>
            destruct (IH p1 eq_refl) as (b & Hin & Hb & Hy & Hv);
            [destruct (Player.collisions cfg p1 rest); exact Hq|];
            destruct (Player.collisions cfg p1 rest) as [p2 rest1]
        end.
        exists b. cbn in *. auto.
      * rewrite collisions_rising in * by (cbn; discriminate).
        exists a. cbn. split; [auto|]. split; [congruence | auto].
    + assert (E : (if Player.check_collision p a
                   then (if Player.lands_on p a
                         then match Platform.platform_type a with
                              | BOUNCY =>
                                  (Player.set_on_ground false
                                     (Player.set_vel_y
                                        (inject_Z (JUMP_STRENGTH cfg) * (15 # 10))
                                        (Player.set_on_ground true
                                           (Player.set_vel_y 0
                                              (Player.set_y
                                                 (inject_Z (Platform.y a)
                                                  - inject_Z (Player.height p)) p)))), a)
                              | CRUMBLING =>
                                  (Player.set_on_ground true
                                     (Player.set_vel_y 0
                                        (Player.set_y
                                           (inject_Z (Platform.y a)
                                            - inject_Z (Player.height p)) p)),
                                   Platform.start_crumble a)
                              | _ =>
                                  (Player.set_on_ground true
                                     (Player.set_vel_y 0
                                        (Player.set_y
                                           (inject_Z (Platform.y a)
                                            - inject_Z (Player.height p)) p)), a)
                              end
                         else (p, a))
                   else (p, a)) = (p, a)).
      { destruct (Player.check_collision p a), (Player.lands_on p a);
          try reflexivity; discriminate. }
      rewrite E in *.
      destruct (IH p Hg) as (b & Hin & Hb & Hy & Hv);
        [destruct (Player.collisions cfg p rest); exact Hq|].
      destruct (Player.collisions cfg p rest) as [p2 rest1].
      exists b. cbn in *. auto.
Qed.

Lemma move_size (cfg : Config) (keys : Keys) (p : Player.t) :
  Player.width (Player.move cfg keys p) = Player.width p
  /\ Player.height (Player.move cfg keys p) = Player.height p.
Proof.
  assert (H1 : forall q, Player.width (Player.physics cfg q) = Player.width q
                         /\ Player.height (Player.physics cfg q) = Player.height q).
  { intro q. unfold Player.physics, Player.apply_gravity, Player.cooldown,
      Player.handle_dash.
    destruct (Player.dashing q); cbn;
      repeat match goal with
             | |- context [if ?c then _ else _] => destruct c; cbn
             end; auto. }
  assert (H2 : forall q, Player.width (Player.dash_mechanic cfg keys q) = Player.width q
                         /\ Player.height (Player.dash_mechanic cfg keys q)
                            = Player.height q).
  { intro q. unfold Player.dash_mechanic.
    destruct (Player.dash_triggered keys q); [|auto].
    destruct (Player.dash_direction keys) as [dx dy].
    destruct (Py.ltb 0 _); cbn; auto. }
  assert (H3 : forall q, Player.width (Player.jumping cfg keys q) = Player.width q
                         /\ Player.height (Player.jumping cfg keys q) = Player.height q).
  { intro q. unfold Player.jumping. destruct (Player.jump_triggered keys q); cbn; auto. }
  assert (H4 : forall q, Player.width (Player.update_coyote cfg q) = Player.width q
                         /\ Player.height (Player.update_coyote cfg q) = Player.height q).
  { intro q. unfold Player.update_coyote.
    destruct (Player.on_ground q); [|destruct (0 <? Player.coyote_timer q)]; cbn; auto. }
  assert (H5 : forall q, Player.width (Player.horizontal_movement cfg keys q)
                         = Player.width q
                         /\ Player.height (Player.horizontal_movement cfg keys q)
                            = Player.height q).
  { intro q. unfold Player.horizontal_movement.
    destruct (Player.dashing q), (K_LEFT keys), (K_RIGHT keys); cbn; auto. }
  unfold Player.move, Player.controls.
  destruct (H1 (Player.dash_mechanic cfg keys
                  (Player.jumping cfg keys
                     (Player.update_coyote cfg
                        (Player.horizontal_movement cfg keys p))))) as [A1 B1].
  destruct (H2 (Player.jumping cfg keys
                  (Player.update_coyote cfg
                     (Player.horizontal_movement cfg keys p)))) as [A2 B2].
  destruct (H3 (Player.update_coyote cfg (Player.horizontal_movement cfg keys p)))
    as [A3 B3].
  destruct (H4 (Player.horizontal_movement cfg keys p)) as [A4 B4].
  destruct (H5 p) as [A5 B5].
  split; congruence.
Qed.

(** X14.  [on_ground] means what it says.  When an update ends with the
    player on the ground, the player is at rest vertically with its bottom
    edge exactly on the top of one of the platforms it was given, and that
    platform is not a BOUNCY one. *)
Theorem grounded_means_on_a_platform (cfg : Config) (keys : Keys)
        (platforms : list Platform.t) (p : Player.t) :
  let q := fst (Player.update cfg keys platforms p) in
  Player.on_ground q = true ->
  exists platform : Platform.t,
    In platform platforms
    /\ Platform.platform_type platform <> BOUNCY
    /\ Player.y q = (inject_Z (Platform.y platform) - inject_Z (Player.height p))%Q
    /\ Player.vel_y q = 0%Q.
Proof.
  intros q Hq. subst q. unfold Player.update in *.
  destruct (collisions_grounded cfg platforms (Player.move cfg keys p) eq_refl Hq)
    as (a & Hin & Hb & Hy & Hv).
  destruct (move_size cfg keys p) as [_ Hh]. rewrite Hh in Hy.
  exists a. auto.
Qed.

Lemma grounded_means_on_a_platform_witness :
  let platform := Platform.init 0 400 250 NORMAL in
  let p := Player.mk 100 (3595 # 10) 30 40 0 7 false 0 0 false 0 in
  let q := fst (Player.update reference_config no_keys [platform] p) in
  Player.on_ground q = true /\ (Player.y q == 360)%Q.
Proof.
  split; [vm_compute; reflexivity|].
  destruct (grounded_means_on_a_platform reference_config no_keys
              [Platform.init 0 400 250 NORMAL]
              (Player.mk 100 (3595 # 10) 30 40 0 7 false 0 0 false 0))
    as (a & Hin & _ & Hy & _).
  - vm_compute. reflexivity.
  - destruct Hin as [<- | []]. rewrite Hy. reflexivity.
Defined.

(** What [move] does to a player that is not dashing when no key is held. *)
Lemma move_idle (cfg : Config) (keys : Keys) (p : Player.t) :
  Player.dashing p = false ->
  K_LEFT keys = false -> K_RIGHT keys = false -> K_z keys = false -> K_x keys = false ->
  let q := Player.move cfg keys p in
  Player.vel_x q = 0%Q
  /\ Player.vel_y q = (Player.vel_y p + GRAVITY cfg)%Q
  /\ Player.x q = (Player.x p + 0)%Q
  /\ Player.y q = (Player.y p + (Player.vel_y p + GRAVITY cfg))%Q
  /\ Player.on_ground q = false
  /\ Player.dashing q = false.
Proof.
  intros Hd Hl Hr Hz Hx q. subst q.
  unfold Player.move, Player.controls, Player.horizontal_movement.
  rewrite Hd, Hl, Hr.
  unfold Player.jumping, Player.jump_triggered, Player.dash_mechanic,
    Player.dash_triggered.
  rewrite Hz, Hx. cbn [andb].
  unfold Player.update_coyote. cbn [Player.on_ground Player.set_vel_x Player.coyote_timer].
  unfold Player.physics, Player.handle_dash, Player.cooldown, Player.apply_gravity.
  destruct (Player.on_ground p); [|destruct (0 <? Player.coyote_timer p)]; cbn;
    rewrite Hd; cbn; destruct (0 <? Player.dash_cooldown p); cbn; rewrite Hd; cbn;
    auto 7.
Qed.

(** X15.  Standing is stable.  A player standing on a NORMAL platform with no
    key held is, after an update against that platform, standing on it again:
    gravity pulls it into the platform and the landing puts it back on top,
    at rest, on the ground, where it was horizontally, and the platform is
    left as it was. *)
Theorem standing_is_stable (cfg : Config) (keys : Keys) (p : Player.t)
        (platform : Platform.t) :
  (0 < GRAVITY cfg)%Q ->
  (GRAVITY cfg < inject_Z (Player.height p) + inject_Z (Platform.height platform))%Q ->
  Platform.platform_type platform = NORMAL ->
  K_LEFT keys = false -> K_RIGHT keys = false -> K_z keys = false -> K_x keys = false ->
  stands_on p platform ->
  let q := fst (Player.update cfg keys [platform] p) in
  stands_on q platform
  /\ Player.on_ground q = true
  /\ (Player.x q == Player.x p)%Q
  /\ snd (Player.update cfg keys [platform] p) = [platform].
Proof.
  intros Hg Hfit Hty Hl Hr Hz Hx ((Hx1 & Hx2) & Hd & Hv & Hy) q. subst q.
  destruct (move_idle cfg keys p Hd Hl Hr Hz Hx) as (M1 & M2 & M3 & M4 & M5 & M6).
  destruct (move_size cfg keys p) as [Mw Mh].
  unfold Player.update. set (m := Player.move cfg keys p) in *. clearbody m.
  cbn [Player.collisions].
  assert (C : Player.check_collision m platform = true).
  { unfold Player.check_collision. rewrite M3, M4, Mw, Mh.
    rewrite !andb_true_iff. repeat split; apply ltb_lt.
    - rewrite Qplus_0_r. exact Hx1.
    - rewrite Qplus_0_r. exact Hx2.
    - rewrite inject_Z_plus, Hy, Hv. lra.
    - rewrite Hy, Hv. lra. }
  assert (L : Player.lands_on m platform = true).
  { unfold Player.lands_on. rewrite M2, M4, Mh.
    rewrite andb_true_iff. split; [apply ltb_lt | apply leb_le].
    - rewrite Hv. lra.
    - rewrite inject_Z_plus, Hy, Hv. change (inject_Z 5) with 5%Q. lra. }
  unfold Player.collide, Player.handle_collision. rewrite C, L, Hty. cbn.
  rewrite Mh, M3.
  split; [|split; [reflexivity | split; [apply Qplus_0_r | reflexivity]]].
  unfold stands_on, over_platform. cbn. rewrite Mw, Mh, M3, M6.
  split; [split; rewrite Qplus_0_r; assumption|].
  split; [reflexivity|]. split; reflexivity.
Qed.

Lemma standing_is_stable_witness :
  let platform := Platform.init 0 400 250 NORMAL in
  let p := Player.mk 100 360 30 40 0 0 true 0 0 false 0 in
  stands_on (fst (Player.update reference_config no_keys [platform] p)) platform.
Proof.
  apply (standing_is_stable reference_config no_keys
           (Player.mk 100 360 30 40 0 0 true 0 0 false 0)
           (Platform.init 0 400 250 NORMAL));
    try reflexivity.
  unfold stands_on, over_platform. cbn. repeat split; reflexivity.
Defined.

(** ** Camera *)

Lemma max_zero_nonneg (t : Q) : (0 <= Py.max 0 t)%Q.
Proof.
  unfold Py.max. destruct (Py.ltb 0 t) eqn:E; [|discriminate].
  apply ltb_lt in E. apply Qlt_le_weak. exact E.
Qed.

Lemma int_nonneg (q : Q) : (0 <= q)%Q -> 0 <= Py.int q.
Proof.
  intro H. unfold Py.int. apply Z.quot_pos; [|lia].
  unfold Qle in H. cbn in H. lia.
Qed.

Lemma follow_invariant (cfg : Config) (players : list Player.t) :
  forall c : Camera.t,
  (0 <= Camera.x c)%Q -> Camera.smoothness c = (1 # 10)%Q -> (0 <= Camera.target_x c)%Q ->
  (0 <= Camera.x (follow cfg players c))%Q
  /\ Camera.smoothness (follow cfg players c) = (1 # 10)%Q
  /\ (0 <= Camera.target_x (follow cfg players c))%Q.
Proof.
  induction players as [|player rest IH]; intros c Hx Hs Ht; cbn [follow]; [auto|].
  apply IH; unfold Camera.update; cbn.
  - rewrite Hs.
    pose proof (max_zero_nonneg
                  (Player.x player - inject_Z (Py.floordiv (SCREEN_WIDTH cfg) 3))) as M.
    set (tx := Py.max 0 _) in *. lra.
  - exact Hs.
  - apply max_zero_nonneg.
Qed.

(** X16.  The camera never scrolls left of the world origin: however the
    player moves, after any number of updates from the initial camera the
    camera x, its target x and the integer [get_x] reports are all
    non-negative. *)
Theorem camera_stays_right_of_origin (cfg : Config) (players : list Player.t) :
  let c := follow cfg players Camera.init in
  (0 <= Camera.x c)%Q /\ (0 <= Camera.target_x c)%Q /\ 0 <= Camera.get_x c.
Proof.
  intro c. subst c.
  destruct (follow_invariant cfg players Camera.init) as (A & _ & B);
    try reflexivity; try discriminate.
  split; [exact A|]. split; [exact B|]. apply int_nonneg. exact A.
Qed.

Lemma max_zero_below (t hi : Q) : (0 <= hi)%Q -> (t <= hi)%Q -> (Py.max 0 t <= hi)%Q.
Proof.
  intros H0 Ht. unfold Py.max. destruct (Py.ltb 0 t); assumption.
Qed.

Lemma follow_within (cfg : Config) (lo hi right : Q) (players : list Player.t) :
  Forall (fun player =>
            (lo <= Player.y player - inject_Z (Py.floordiv (SCREEN_HEIGHT cfg) 2) <= hi)%Q
            /\ (Player.x player - inject_Z (Py.floordiv (SCREEN_WIDTH cfg) 3) <= right)%Q)
         players ->
  (0 <= right)%Q ->
  forall c : Camera.t,
  Camera.smoothness c = (1 # 10)%Q ->
  (lo <= Camera.y c <= hi)%Q -> (Camera.x c <= right)%Q ->
  (lo <= Camera.y (follow cfg players c) <= hi)%Q
  /\ (Camera.x (follow cfg players c) <= right)%Q.
Proof.
  intros HF Hr. induction HF as [|player rest [Hy Hx] _ IH]; intros c Hs Hcy Hcx;
    cbn [follow]; [auto|].
  apply IH; unfold Camera.update; cbn; try exact Hs; rewrite Hs.
  - set (ty := (Player.y player - inject_Z (Py.floordiv (SCREEN_HEIGHT cfg) 2))%Q) in *.
    lra.
  - pose proof (max_zero_below _ right Hr Hx) as M.
    set (tx := Py.max 0 _) in *. lra.
Qed.

(** X17.  The camera never runs past what it follows.  If the vertical
    targets [player.y - SCREEN_HEIGHT // 2] of all the updates lie in a range
    that holds the starting height 0, the camera y stays in that range; and
    if the horizontal targets [player.x - SCREEN_WIDTH // 3] are at most some
    bound, so is the camera x. *)
Theorem camera_stays_within_its_targets (cfg : Config) (lo hi right : Q)
        (players : list Player.t) :
  (lo <= 0 <= hi)%Q ->
  (0 <= right)%Q ->
  Forall (fun player =>
            (lo <= Player.y player - inject_Z (Py.floordiv (SCREEN_HEIGHT cfg) 2) <= hi)%Q
            /\ (Player.x player - inject_Z (Py.floordiv (SCREEN_WIDTH cfg) 3) <= right)%Q)
         players ->
  let c := follow cfg players Camera.init in
  (lo <= Camera.y c <= hi)%Q /\ (Camera.x c <= right)%Q.
Proof.
  intros H0 Hr HF c. subst c.
  apply (follow_within cfg lo hi right players HF Hr Camera.init);
    [reflexivity | exact H0 | exact Hr].
Qed.

Lemma camera_stays_within_its_targets_witness :
  let c := follow reference_config
             [Player.init 400 300; Player.init 420 360; Player.init 440 250]
             Camera.init in
  (- (50) <= Camera.y c <= 60)%Q /\ (Camera.x c <= 107)%Q.
Proof.
  apply (camera_stays_within_its_targets reference_config (- (50)) 60 107
           [Player.init 400 300; Player.init 420 360; Player.init 440 250]).
  - split; discriminate.
  - discriminate.
  - repeat constructor; vm_compute; discriminate.
Defined.

(** ** The session: score and events *)

Lemma update_score (R : PyRandom) (cfg : Config) (keys : Keys) (g : Game.t R) :
  Game.score g <= Game.score (Game.update R cfg keys g).
Proof.
  unfold Game.update. destruct (Game.game_over g); [lia|].
  destruct (PlatformGenerator.update R cfg _ _ _) as [gen1 r1].
  destruct (Player.update_shared cfg keys _ _) as [player1 platforms1].
  cbn. lia.
Qed.

(** X18.  The score never goes down while the session runs: through any
    sequence of updates it is at least what it was, also when the player
    walks back. *)
Theorem score_never_decreases (R : PyRandom) (cfg : Config) (inputs : list Keys)
        (g : Game.t R) :
  Game.score g <= Game.score (updates cfg inputs g).
Proof.
  revert g. induction inputs as [|keys rest IH]; intro g; cbn [updates]; [lia|].
  pose proof (update_score R cfg keys g). specialize (IH (Game.update R cfg keys g)). lia.
Qed.

(** X19.  [handle_events] never raises.  While the game is not over it
    changes nothing but [running], so the restart key does nothing then; and
    [running], once cleared, is never set again by events. *)
Theorem events_only_stop_or_restart (R : PyRandom) (cfg : Config)
        (events : list Game.event) (g : Game.t R) :
  exists g' : Game.t R,
    Game.handle_events R cfg events g = Py.Ok g'
    /\ (Game.running g = false -> Game.running g' = false)
    /\ (Game.game_over g = false -> g' = Game.set_running R (Game.running g') g).
Proof.
  revert g. induction events as [|e rest IH]; intro g; cbn [Game.handle_events].
  - exists g. split; [reflexivity|]. split; [auto|]. intros _. destruct g; reflexivity.
  - assert (H : exists g1, Game.handle_event R cfg e g = Py.Ok g1
                           /\ (Game.running g = false -> Game.running g1 = false)
                           /\ (Game.game_over g = false ->
                               g1 = Game.set_running R (Game.running g1) g)).
    { destruct e; cbn.
      - eexists. split; [reflexivity|]. cbn. auto.
      - eexists. split; [reflexivity|]. cbn. auto.
      - destruct (Game.game_over g) eqn:E.
        + destruct (reset_game_fresh R cfg g) as (g1 & E1 & _).
          exists g1. split; [exact E1|]. split; [|discriminate].
          unfold Game.reset_game, Game.reset_game_body in E1.
          destruct (random_randint R 0 1000000 (Game.random_state g)) as [sd r1].
          destruct (PlatformGenerator.init R cfg (Some sd) r1) as [gen r2].
          injection E1 as <-. cbn. auto.
        + exists g. split; [reflexivity|]. split; [auto|]. intros _.
          destruct g; reflexivity.
      - exists g. split; [reflexivity|]. split; [auto|]. intros _.
        destruct g; reflexivity. }
    destruct H as (g1 & E1 & R1 & O1). rewrite E1.
    destruct (IH g1) as (g2 & E2 & R2 & O2).
    exists g2. split; [exact E2|]. split; [auto|].
    intro Hover. specialize (O1 Hover).
    assert (Hover1 : Game.game_over g1 = false) by (rewrite O1; cbn; exact Hover).
    specialize (O2 Hover1). rewrite O2 at 1. rewrite O1 at 1. reflexivity.
Qed.


